(** * ESF_renamer: conversion, identifier extraction and renaming pipeline

    A shallow embedding of the three scripts of the repository
    ([word_to_pdf.py], [PID_RENAME.py], [docx2pdf_converter.py]) and the
    properties of their renaming pipeline.

    Conventions of the model.
    - Python [str] values are [string]s (sequences of 8-bit characters);
      [\d], [str.isdigit] and [str.lower] are therefore the ASCII ones.
    - [os.path] is [posixpath] (separator [/]); [pathlib] paths are their
      string form, without pathlib's normalisation of [.] components and of
      doubled separators.
    - The file system is a finite map from path strings to file contents,
      together with the set of existing directories and the set of paths
      the operating system refuses to move.  Workers are run one after the
      other.
    - A PDF is the text of its pages as PyPDF2 extracts it; a page, or the
      whole document, may be unreadable.
    - [while True] loops take a [fuel] argument; running out of it is the
      outcome [OutOfFuel], which no [except] clause catches. *)

From Stdlib Require Import Strings.String Strings.Ascii Numbers.DecimalString
  Numbers.DecimalNat.
From Stdlib Require QArith.QArith_base.
From stdpp Require Import base option list gmap sets strings fin_maps fin_sets.

Local Open Scope string_scope.
Local Open Scope nat_scope.

(** ** Python strings *)

Module PyStr.

Definition is_digit (c : ascii) : bool :=
  match c with
  | "0" | "1" | "2" | "3" | "4" | "5" | "6" | "7" | "8" | "9" => true
  | _ => false
  end%char.

Definition char_eqb (a b : ascii) : bool := Ascii.eqb a b.

(** [str(n)] for a non-negative integer. *)
Definition str_of_nat (n : nat) : string :=
  NilEmpty.string_of_uint (Nat.to_uint n).

Fixpoint replicate_char (n : nat) (c : ascii) : string :=
  match n with
  | O => ""
  | S k => String c (replicate_char k c)
  end.

(** [format(n, "0{w}d")]: decimal, padded on the left with zeros up to a
    width of at least [w]; longer numbers are not cut. *)
Definition zero_pad (w : nat) (n : nat) : string :=
  let s := str_of_nat n in
  replicate_char (w - String.length s) "0" +:+ s.

(** [f"{counter:02d}"] *)
Definition fmt_02d (counter : nat) : string := zero_pad 2 counter.

(** [s.startswith(pre)] *)
Fixpoint startswith (pre s : string) : bool :=
  match pre with
  | "" => true
  | String a pre' =>
      match s with
      | "" => false
      | String b s' => Ascii.eqb a b && startswith pre' s'
      end
  end.

(** [s.endswith(suf)] *)
Definition endswith (suf s : string) : bool :=
  (String.length suf <=? String.length s)%nat
  && String.eqb
       (String.substring (String.length s - String.length suf)
          (String.length suf) s) suf.

(** [sub in s] *)
Fixpoint contains (sub s : string) : bool :=
  startswith sub s
  || match s with
     | "" => false
     | String _ r => contains sub r
     end.

(** [s.replace(old, new)] for one-character [old] and [new]. *)
Fixpoint replace_char (old new : ascii) (s : string) : string :=
  match s with
  | "" => ""
  | String c r =>
      String (if char_eqb c old then new else c) (replace_char old new r)
  end.

(** [s.split(c)] for a one-character separator: never the empty list. *)
Fixpoint split_char (c : ascii) (s : string) : list string :=
  match s with
  | "" => [""]
  | String a r =>
      if char_eqb a c then "" :: split_char c r
      else match split_char c r with
           | [] => [String a ""]
           | x :: xs => String a x :: xs
           end
  end.

(** [sep.join(parts)] *)
Definition join_with (sep : string) (parts : list string) : string :=
  String.concat sep parts.

(** [s[:-k]] *)
Definition drop_last (k : nat) (s : string) : string :=
  String.substring 0 (String.length s - k) s.

Definition lower_char (c : ascii) : ascii :=
  let n := nat_of_ascii c in
  if (65 <=? n)%nat && (n <=? 90)%nat then ascii_of_nat (n + 32) else c.

(** [s.lower()] *)
Fixpoint lower (s : string) : string :=
  match s with
  | "" => ""
  | String c r => String (lower_char c) (lower r)
  end.

Fixpoint all_chars (f : ascii → bool) (s : string) : bool :=
  match s with
  | "" => true
  | String c r => f c && all_chars f r
  end.

(** [s.isdigit()] *)
Definition isdigit (s : string) : bool :=
  negb (String.eqb s "") && all_chars is_digit s.

Fixpoint filter_chars (f : ascii → bool) (s : string) : string :=
  match s with
  | "" => ""
  | String c r => if f c then String c (filter_chars f r) else filter_chars f r
  end.

Definition is_whitespace (c : ascii) : bool :=
  let n := nat_of_ascii c in
  (n =? 32)%nat || ((9 <=? n)%nat && (n <=? 13)%nat)
  || ((28 <=? n)%nat && (n <=? 31)%nat).

Fixpoint lstrip (s : string) : string :=
  match s with
  | "" => ""
  | String c r => if is_whitespace c then lstrip r else s
  end.

Fixpoint rstrip (s : string) : string :=
  match s with
  | "" => ""
  | String c r =>
      let r' := rstrip r in
      if is_whitespace c && String.eqb r' "" then "" else String c r'
  end.

(** [s.strip()] *)
Definition strip (s : string) : string := rstrip (lstrip s).

(** Truth value of a string: the empty string is false. *)
Definition truthy (s : string) : bool := negb (String.eqb s "").

End PyStr.

(** ** Regular expressions of fixed shape

    Every pattern of the scripts is a sequence of character classes, one
    character each; a pattern is the list of its classes. *)

Module Re.

Definition pattern := list (ascii → bool).

Definition lit (c : ascii) : ascii → bool := fun a => Ascii.eqb a c.

(** The match of the pattern at the start of [s], if any. *)
Fixpoint match_here (pat : pattern) (s : string) : option string :=
  match pat with
  | [] => Some ""
  | cls :: pat' =>
      match s with
      | "" => None
      | String c r =>
          if cls c then String c <$> match_here pat' r else None
      end
  end.

(** [re.match(pat, s)] *)
Definition re_match (pat : pattern) (s : string) : option string :=
  match_here pat s.

(** [re.search(pat, s)]: the leftmost match.  It is also the first
    element of [re.findall(pat, s)]. *)
Fixpoint re_search (pat : pattern) (s : string) : option string :=
  match match_here pat s with
  | Some m => Some m
  | None =>
      match s with
      | "" => None
      | String _ r => re_search pat r
      end
  end.

Definition digit_or_O (c : ascii) : bool :=
  PyStr.is_digit c || Ascii.eqb c "O".

Definition dash_or_underscore (c : ascii) : bool :=
  Ascii.eqb c "-" || Ascii.eqb c "_".

(** [P[0-9O]{6}] *)
Definition pid_ocr : pattern := lit "P" :: repeat digit_or_O 6.

(** [P\d{6}] *)
Definition pid_digits : pattern := lit "P" :: repeat PyStr.is_digit 6.

(** [P\d{6}[-_]] *)
Definition pid_in_filename : pattern :=
  lit "P" :: repeat PyStr.is_digit 6 ++ [dash_or_underscore].

(** [re.sub(r'[^P0-9]', '', s)] *)
Definition strip_non_pid_chars (s : string) : string :=
  PyStr.filter_chars (fun c => Ascii.eqb c "P" || PyStr.is_digit c) s.

End Re.

(** ** os.path and pathlib *)

Module OsPath.

Definition sep : ascii := "/".

Fixpoint has_sep (s : string) : bool :=
  match s with
  | "" => false
  | String c r => Ascii.eqb c sep || has_sep r
  end.

(** [p[:p.rfind('/') + 1]] *)
Fixpoint head_of (p : string) : string :=
  match p with
  | "" => ""
  | String c r =>
      if has_sep r then String c (head_of r)
      else if Ascii.eqb c sep then String c "" else ""
  end.

(** [os.path.basename(p)], which is [p[p.rfind('/') + 1:]] *)
Fixpoint basename (p : string) : string :=
  match p with
  | "" => ""
  | String c r =>
      if has_sep r then basename r
      else if Ascii.eqb c sep then r else p
  end.

Definition all_sep (s : string) : bool :=
  PyStr.all_chars (fun c => Ascii.eqb c sep) s.

(** [s.rstrip('/')] *)
Fixpoint rstrip_sep (s : string) : string :=
  match s with
  | "" => ""
  | String c r =>
      let r' := rstrip_sep r in
      if Ascii.eqb c sep && String.eqb r' "" then "" else String c r'
  end.

(** [os.path.dirname(p)] *)
Definition dirname (p : string) : string :=
  let head := head_of p in
  if PyStr.truthy head && negb (all_sep head) then rstrip_sep head else head.

(** [s.endswith('/')] *)
Fixpoint ends_with_sep (s : string) : bool :=
  match s with
  | "" => false
  | String c r =>
      match r with
      | "" => Ascii.eqb c sep
      | _ => ends_with_sep r
      end
  end.

(** [os.path.join(a, b)] *)
Definition join (a b : string) : string :=
  if PyStr.startswith "/" b then b
  else if negb (PyStr.truthy a) || ends_with_sep a then a +:+ b
  else a +:+ "/" +:+ b.

(** Splits at the last dot: the text before it, and the text from it on. *)
Fixpoint split_last_dot (s : string) : option (string * string) :=
  match s with
  | "" => None
  | String c r =>
      match split_last_dot r with
      | Some (b, e) => Some (String c b, e)
      | None => if Ascii.eqb c "." then Some ("", s) else None
      end
  end.

Definition all_dots (s : string) : bool :=
  PyStr.all_chars (fun c => Ascii.eqb c ".") s.

(** [os.path.splitext] on a name without separator: the extension starts
    at the last dot, unless only dots come before it. *)
Definition splitext_name (f : string) : string * string :=
  match split_last_dot f with
  | Some (b, e) => if all_dots b then (f, "") else (b, e)
  | None => (f, "")
  end.

(** [os.path.splitext(p)] *)
Definition splitext (p : string) : string * string :=
  let '(n, e) := splitext_name (basename p) in (head_of p +:+ n, e).

(** [PurePath.stem] of a final component: the suffix starts at the last
    dot when that dot is neither the first nor the last character. *)
Definition stem_of_name (name : string) : string :=
  match split_last_dot name with
  | Some (b, e) =>
      if PyStr.truthy b && (1 <? String.length e)%nat then b else name
  | None => name
  end.

(** [Path(p).stem] *)
Definition stem (p : string) : string := stem_of_name (basename p).

(** [str(Path(p).with_suffix(suffix))] *)
Definition with_suffix (p suffix : string) : string :=
  head_of p +:+ stem p +:+ suffix.

End OsPath.


(** ** The file system and the outcome of running a piece of script *)

(** The text of one page as [page.extract_text()] returns it; [None] when
    the call raises. *)
Definition page := option string.

(** What [PyPDF2.PdfReader] finds in a PDF file: its pages, or [None] when
    the file cannot be parsed. *)
Definition pdf := option (list page).

Inductive content :=
| Pdf (doc : pdf)
| WordDoc.

Inductive op_kind := OpSave | OpCopy | OpRename.

(** One write to the file system: the operation, its source (if it has
    one), its target, and whether a file was at the target just before. *)
Record event := Event {
  ev_op : op_kind;
  ev_src : option string;
  ev_dst : string;
  ev_occupied : bool
}.

Record world := World {
  files : gmap string content;
  dirs : gset string;
  locked : gset string;
  trace : list event
}.

(** What the scripts call but do not define. *)
Record env := Env {
  (** [platform.system()] *)
  platform_system : string;
  (** One attempt of the Word automation on an input document: the PDF it
      saves, or the text of the exception. *)
  word_export : string → nat → pdf + string;
  (** [langdetect.detect]; [None] when it raises. *)
  detect : string → option string;
  (** The LibreOffice process on an input document: the PDF it writes, or
      its standard error when the return code is not zero. *)
  soffice_run : string → pdf + string;
  (** [docx2pdf.convert] *)
  docx2pdf_convert : string → pdf + string;
  (** [os.path.relpath(path, start)] *)
  relpath : string → string → string;
  (** The files that [os.walk(top)] lists, each as [join(root, file)], in
      the order of the walk. *)
  walk_files : world → string → list string
}.

Inductive outcome (A : Type) :=
| Ret (a : A)
| Exc (msg : string)
| OutOfFuel.
Arguments Ret {A} a.
Arguments Exc {A} msg.
Arguments OutOfFuel {A}.

Definition M (A : Type) : Type := world → outcome A * world.

Definition ret {A} (a : A) : M A := fun w => (Ret a, w).

Definition raise {A} (msg : string) : M A := fun w => (Exc msg, w).

Definition out_of_fuel {A} : M A := fun w => (OutOfFuel, w).

Definition bind {A B} (m : M A) (k : A → M B) : M B :=
  fun w =>
    match m w with
    | (Ret a, w') => k a w'
    | (Exc msg, w') => (Exc msg, w')
    | (OutOfFuel, w') => (OutOfFuel, w')
    end.

(** [try: m  except Exception as e: h(str(e))] *)
Definition try_except {A} (m : M A) (h : string → M A) : M A :=
  fun w =>
    match m w with
    | (Exc msg, w') => h msg w'
    | r => r
    end.

Definition get_world : M world := fun w => (Ret w, w).

Global Instance M_ret : MRet M := @ret.
Global Instance M_bind : MBind M := fun A B k m => bind m k.

Module Os.

Definition is_file (w : world) (p : string) : bool :=
  bool_decide (is_Some (files w !! p)).

Definition is_dir (w : world) (p : string) : bool :=
  bool_decide (p ∈ dirs w).

(** The directory named by the empty string is the current one. *)
Definition dir_exists (w : world) (d : string) : bool :=
  negb (PyStr.truthy d) || is_dir w d.

(** [os.path.exists(p)] *)
Definition path_exists (w : world) (p : string) : bool :=
  is_file w p || is_dir w p.

Definition exists_ (p : string) : M bool :=
  fun w => (Ret (path_exists w p), w).

Definition log (e : event) (w : world) : world :=
  World (files w) (dirs w) (locked w) (trace w ++ [e]).

Definition put (p : string) (c : content) (w : world) : world :=
  World (<[p := c]> (files w)) (dirs w) (locked w) (trace w).

Definition remove (p : string) (w : world) : world :=
  World (delete p (files w)) (dirs w) (locked w) (trace w).

(** An external program saves a file at [dst], replacing what is there. *)
Definition save (dst : string) (c : content) : M unit :=
  fun w =>
    if is_dir w dst || negb (dir_exists w (OsPath.dirname dst))
    then (Exc "cannot write the output file", w)
    else (Ret tt, put dst c (log (Event OpSave None dst (is_file w dst)) w)).

(** [os.rename(src, dst)] (and [Path.rename]) with the POSIX behaviour:
    an existing file at [dst] is replaced. *)
Definition rename (src dst : string) : M unit :=
  fun w =>
    match files w !! src with
    | None => (Exc "No such file or directory", w)
    | Some c =>
        if bool_decide (src ∈ locked w) then (Exc "Permission denied", w)
        else if is_dir w dst then (Exc "Is a directory", w)
        else if negb (dir_exists w (OsPath.dirname dst))
        then (Exc "No such file or directory", w)
        else
          (Ret tt,
           put dst c
             (remove src (log (Event OpRename (Some src) dst (is_file w dst)) w)))
    end.

(** [shutil.copy2(src, dst)]: into [dst] when it is a directory. *)
Definition copy2 (src dst : string) : M unit :=
  fun w =>
    match files w !! src with
    | None => (Exc "No such file or directory", w)
    | Some c =>
        let dst' :=
          if is_dir w dst then OsPath.join dst (OsPath.basename src)
          else dst in
        if bool_decide (src = dst') then (Exc "are the same file", w)
        else if is_dir w dst' || negb (dir_exists w (OsPath.dirname dst'))
        then (Exc "No such file or directory", w)
        else
          (Ret tt,
           put dst' c (log (Event OpCopy (Some src) dst' (is_file w dst')) w))
    end.

(** [os.remove(p)] (and [Path.unlink]) *)
Definition unlink (p : string) : M unit :=
  fun w =>
    match files w !! p with
    | None => (Exc "No such file or directory", w)
    | Some _ =>
        if bool_decide (p ∈ locked w) then (Exc "Permission denied", w)
        else (Ret tt, remove p w)
    end.

Fixpoint ancestors (n : nat) (d : string) : gset string :=
  match n with
  | O => ∅
  | S n' =>
      if negb (PyStr.truthy d) || OsPath.all_sep d then ∅
      else {[d]} ∪ ancestors n' (OsPath.dirname d)
  end.

(** [os.makedirs(d, exist_ok=True)] *)
Definition makedirs (d : string) : M unit :=
  fun w =>
    if is_file w d then (Exc "File exists", w)
    else
      (Ret tt,
       World (files w) (dirs w ∪ ancestors (String.length d) d) (locked w)
         (trace w)).

(** [PyPDF2.PdfReader(open(p, 'rb')).pages] *)
Definition read_pdf (p : string) : M (list page) :=
  fun w =>
    match files w !! p with
    | Some (Pdf (Some pages)) => (Ret pages, w)
    | Some _ => (Exc "cannot read the PDF", w)
    | None => (Exc "No such file or directory", w)
    end.

End Os.

(** A write that replaced a file other than its own source. *)
Definition clobbers (e : event) : bool :=
  ev_occupied e && negb (bool_decide (ev_src e = Some (ev_dst e))).

(** [while True: if ok(counter): return counter; counter += 1] *)
Fixpoint first_counter (fuel : nat) (ok : nat → bool) (counter : nat)
  : option nat :=
  match fuel with
  | O => None
  | S fuel' =>
      if ok counter then Some counter
      else first_counter fuel' ok (S counter)
  end.


(** [while True] over [counter = 1, 2, ...] until [stop] accepts the
    candidate made from the counter. *)
Definition while_counter (fuel : nat) (candidate : nat → string)
    (stop : world → string → bool) : M string :=
  fun w =>
    match first_counter fuel (fun c => stop w (candidate c)) 1 with
    | Some c => (Ret (candidate c), w)
    | None => (OutOfFuel, w)
    end.

Fixpoint foldM {A S : Type} (f : S → A → M S) (s : S) (l : list A) : M S :=
  match l with
  | [] => mret s
  | a :: l' => s' ← f s a; foldM f s' l'
  end.

Fixpoint mapM' {A B : Type} (f : A → M B) (l : list A) : M (list B) :=
  match l with
  | [] => mret []
  | a :: l' => b ← f a; bs ← mapM' f l'; mret (b :: bs)
  end.

Definition truthy_opt (o : option string) : bool :=
  match o with
  | Some s => PyStr.truthy s
  | None => false
  end.

Definition is_free (w : world) (p : string) : bool := negb (Os.path_exists w p).

(** ** word_to_pdf.py *)

Module WordToPdf.

(** ['P' + pid[1:].replace('O', '0')] *)
Definition correct_pid (pid : string) : string :=
  "P" +:+ PyStr.replace_char "O" "0"
            (match pid with String _ r => r | "" => "" end).

Fixpoint search_pages (pages : list page) : M (option string) :=
  match pages with
  | [] => mret None
  | None :: _ => raise "extract_text failed"
  | Some text :: rest =>
      match Re.re_search Re.pid_ocr text with
      | Some pid => mret (Some (correct_pid pid))
      | None => search_pages rest
      end
  end.

Definition extract_project_id_within (max_pages : nat) (pdf_path : string)
  : M (option string) :=
  try_except
    (pages ← Os.read_pdf pdf_path;
     let pages_to_search := min (length pages) max_pages in
     search_pages (take pages_to_search pages))
    (fun _ => mret None).

Definition extract_project_id (pdf_path : string) : M (option string) :=
  extract_project_id_within 10 pdf_path.

Definition extract_project_id_from_filename (filename : string)
  : option string :=
  match Re.re_search Re.pid_in_filename filename with
  | Some m => Some (PyStr.drop_last 1 m)
  | None => None
  end.

Definition get_unique_filename (fuel : nat) (base_path : string) : M string :=
  e ← Os.exists_ base_path;
  if negb e then mret base_path
  else
    let directory := OsPath.dirname base_path in
    let filename := OsPath.basename base_path in
    let '(name, ext) := OsPath.splitext filename in
    while_counter fuel
      (fun counter =>
         OsPath.join directory
           (name +:+ "_" +:+ PyStr.fmt_02d counter +:+ ext))
      is_free.

(** The loop [for attempt in range(retries + 1)], entered at [attempt]
    with [n] iterations left.  One iteration is one session with Word,
    whichever way the document is opened. *)
Fixpoint word_attempts (E : env) (input_file output_file : string)
    (retries attempt n : nat) : M string :=
  match n with
  | O => raise "Unknown error in Word conversion"
  | S n' =>
      try_except
        (match word_export E input_file attempt with
         | inl doc => Os.save output_file (Pdf doc);; mret output_file
         | inr e => raise e
         end)
        (fun e =>
           if (attempt <? retries)%nat
           then word_attempts E input_file output_file retries (S attempt) n'
           else raise ("MS Word conversion failed after "
                       +:+ PyStr.str_of_nat (retries + 1)
                       +:+ " attempts: " +:+ e))
  end.

Definition convert_with_word (E : env) (input_file output_file : string)
    (retries : nat) : M string :=
  word_attempts E input_file output_file retries 0 (S retries).

Fixpoint gather_text (pages : list page) (all_text : string) : M string :=
  match pages with
  | [] => mret all_text
  | None :: _ => raise "extract_text failed"
  | Some text :: rest =>
      if PyStr.truthy text then
        let all_text := all_text +:+ text in
        if (1000 <? String.length all_text)%nat then mret all_text
        else gather_text rest all_text
      else gather_text rest all_text
  end.

Definition detect_language_within (pages_to_check : nat) (E : env)
    (pdf_path : string) : M string :=
  try_except
    (pages ← Os.read_pdf pdf_path;
     let pages_to_check := min (length pages) pages_to_check in
     all_text ← gather_text (take pages_to_check pages) "";
     if (100 <? String.length all_text)%nat then
       match detect E all_text with
       | Some lang => mret (if String.eqb lang "en" then "EN" else "NON")
       | None => mret "NON"
       end
     else mret "NON")
    (fun _ => mret "NON").

Definition detect_language (E : env) (pdf_path : string) : M string :=
  detect_language_within 3 E pdf_path.

Record ConversionResult := Result {
  original : string;
  success : bool;
  error : option string;
  project_id : option string
}.

(** [country_mapping[project_id].replace(" ", "_")] when the mapping is
    not empty and has the identifier, else the empty string. *)
Definition country_of (country_mapping : gmap string string) (pid : string)
  : string :=
  match country_mapping !! pid with
  | Some c => PyStr.replace_char " " "_" c
  | None => ""
  end.

(** The final name, with the counter when [counter] is given. *)
Definition final_name (pid country language_suffix : string)
    (counter : option nat) : string :=
  let tail :=
    match counter with
    | Some c => "_" +:+ PyStr.fmt_02d c +:+ ".pdf"
    | None => ".pdf"
    end in
  if PyStr.truthy country
  then pid +:+ "_" +:+ country +:+ "_" +:+ language_suffix +:+ tail
  else pid +:+ "_" +:+ language_suffix +:+ tail.

(** The directory a file goes to: lines 230 to 234 of [process_file],
    and 365 to 369 of [copy_existing_pdfs]. *)
Definition resolve_target_dir (output_dir rel_path : string)
    (also_if_empty : bool) : M string :=
  if (PyStr.truthy rel_path || also_if_empty)
     && negb (String.eqb rel_path ".")
  then
    let target_dir := OsPath.join output_dir rel_path in
    Os.makedirs target_dir;; mret target_dir
  else mret output_dir.

(** The name [{project_id}.pdf], or the first free [{project_id}_NN.pdf]. *)
Definition base_pid_path (fuel : nat) (target_dir pid : string) : M string :=
  e ← Os.exists_ (OsPath.join target_dir (pid +:+ ".pdf"));
  if (e : bool) then
    while_counter fuel
      (fun counter =>
         OsPath.join target_dir
           (pid +:+ "_" +:+ PyStr.fmt_02d counter +:+ ".pdf"))
      is_free
  else mret (OsPath.join target_dir (pid +:+ ".pdf")).

(** The final path for the file now at [current]. *)
Definition final_pid_path (fuel : nat) (target_dir pid country
    language_suffix current : string) : M string :=
  let pid_path :=
    OsPath.join target_dir (final_name pid country language_suffix None) in
  (e ← Os.exists_ pid_path;
  if e && negb (String.eqb pid_path current) then
    while_counter fuel
      (fun counter =>
         OsPath.join target_dir
           (final_name pid country language_suffix (Some counter)))
      (fun w temp_path => is_free w temp_path || String.eqb temp_path current)
  else mret pid_path).

Definition find_project_id (pdf_path filename : string) : M (option string) :=
  project_id ← extract_project_id pdf_path;
  if negb (truthy_opt project_id)
  then mret (extract_project_id_from_filename filename)
  else mret project_id.

(** Lines 268 to 334 of [process_file]: the two renames of a converted
    file for which the identifier [pid] was found. *)
Definition rename_with_identifier (fuel : nat) (E : env)
    (file_path target_dir pdf_path pid : string)
    (country_mapping : gmap string string) : M ConversionResult :=
  base_pid_path ← base_pid_path fuel target_dir pid;
  renamed ← try_except
               (Os.rename pdf_path base_pid_path;; mret true)
               (fun _ => mret false);
  if negb renamed then mret (Result file_path true None None)
  else
    let pdf_path := base_pid_path in
    (language_suffix ← detect_language E pdf_path;
     let country := country_of country_mapping pid in
     (pid_path ← final_pid_path fuel target_dir pid country language_suffix
                   pdf_path;
      try_except
        (Os.rename pdf_path pid_path;;
         mret (Result file_path true None (Some pid)))
        (fun _ => mret (Result file_path true None (Some pid))))).

(** Lines 248 to 339 of [process_file]: the conversion to the probed
    [output_path] and what follows it. *)
Definition convert_and_rename (fuel : nat) (E : env)
    (file_path target_dir output_path : string) (rename_with_pid : bool)
    (country_mapping : gmap string string) : M ConversionResult :=
  let input_path := file_path in
  if negb (String.eqb (platform_system E) "Windows")
  then raise "Microsoft Word conversion requires Windows"
  else
    pdf_path ← convert_with_word E input_path output_path 2;
    if rename_with_pid && PyStr.truthy pdf_path then
      project_id ← find_project_id pdf_path (OsPath.basename file_path);
      if truthy_opt project_id then
        rename_with_identifier fuel E file_path target_dir pdf_path
          (default "" project_id) country_mapping
      else mret (Result file_path true None None)
    else mret (Result file_path true None None).

(** The path that [process_file] probes for the converted file (lines 236
    to 243): [<stem>.pdf] in the target directory, or the unique name made
    from it. *)
Definition probe_output_path (fuel : nat) (file_path target_dir : string)
  : M string :=
  let output_name := OsPath.stem file_path +:+ ".pdf" in
  let output_path := OsPath.join target_dir output_name in
  (e ← Os.exists_ output_path;
   if (e : bool) then get_unique_filename fuel output_path
   else mret output_path).

Definition process_file (fuel : nat) (E : env)
    (file_path output_dir input_dir : string) (rename_with_pid : bool)
    (country_mapping : gmap string string) : M ConversionResult :=
  try_except
    (let input_path := file_path in
     let rel_path := OsPath.dirname (relpath E input_path input_dir) in
     (target_dir ← resolve_target_dir output_dir rel_path false;
      output_path ← probe_output_path fuel file_path target_dir;
      convert_and_rename fuel E file_path target_dir output_path
        rename_with_pid country_mapping))
    (fun e => mret (Result file_path false (Some e) None)).

Record copy_state := CopyState {
  copied : nat;
  skipped : nat;
  pid_mapping : gmap string string
}.

Definition copy_plain (fuel : nat) (pdf_file dest_file : string)
    (st : copy_state) : M copy_state :=
  e ← Os.exists_ dest_file;
  if (e : bool) then
    unique_dest ← get_unique_filename fuel dest_file;
    Os.copy2 pdf_file unique_dest;;
    mret (CopyState (copied st + 1) (skipped st) (pid_mapping st))
  else
    Os.copy2 pdf_file dest_file;;
    mret (CopyState (copied st + 1) (skipped st) (pid_mapping st)).

(** Lines 388 to 451 of [copy_existing_pdfs]: the copy and the rename of a
    PDF for which the identifier [pid] was found. *)
Definition copy_with_identifier (fuel : nat) (E : env)
    (pdf_file target_dir pid : string)
    (country_mapping : gmap string string) (st : copy_state) : M copy_state :=
  base_dest_file ← base_pid_path fuel target_dir pid;
  Os.copy2 pdf_file base_dest_file;;
  language_suffix ← detect_language E base_dest_file;
  let country := country_of country_mapping pid in
  (final_dest_file ← final_pid_path fuel target_dir pid country
                       language_suffix base_dest_file;
   try_except
     (Os.rename base_dest_file final_dest_file;;
      mret (CopyState (copied st + 1) (skipped st)
              (<[final_dest_file := pid]> (pid_mapping st))))
     (fun _ =>
        mret (CopyState (copied st + 1) (skipped st)
                (<[base_dest_file := pid]> (pid_mapping st))))).

(** The body of the loop of [copy_existing_pdfs], for one file. *)
Definition copy_one (fuel : nat) (E : env) (input_dir output_dir : string)
    (rename_with_pid : bool) (country_mapping : gmap string string)
    (st : copy_state) (pdf_file : string) : M copy_state :=
  let rel_path := relpath E (OsPath.dirname pdf_file) input_dir in
  (target_dir ← resolve_target_dir output_dir rel_path true;
   let dest_file := OsPath.join target_dir (OsPath.basename pdf_file) in
   try_except
     (if rename_with_pid then
        project_id ← find_project_id pdf_file (OsPath.basename pdf_file);
        if truthy_opt project_id then
          copy_with_identifier fuel E pdf_file target_dir
            (default "" project_id) country_mapping st
        else copy_plain fuel pdf_file dest_file st
      else copy_plain fuel pdf_file dest_file st)
     (fun _ =>
        mret (CopyState (copied st) (skipped st + 1) (pid_mapping st)))).

Definition is_pdf_name (file : string) : bool :=
  PyStr.endswith ".pdf" (PyStr.lower file).

Definition copy_existing_pdfs (fuel : nat) (E : env)
    (input_dir output_dir : string) (rename_with_pid : bool)
    (country_mapping : gmap string string)
  : M (nat * gmap string string) :=
  w ← get_world;
  let pdf_files :=
    filter (fun p => is_pdf_name (OsPath.basename p))
      (walk_files E w input_dir) in
  match pdf_files with
  | [] => mret (0, ∅)
  | _ =>
      st ← foldM
             (copy_one fuel E input_dir output_dir rename_with_pid
                country_mapping)
             (CopyState 0 0 ∅) pdf_files;
      mret (copied st, pid_mapping st)
  end.

(** What the futures of one batch return, the workers taken in turn. *)
Definition batch_results (fuel : nat) (E : env) (batch : list string)
    (output_dir input_dir : string) (rename_with_pid : bool)
    (country_mapping : gmap string string) : M (list ConversionResult) :=
  mapM'
    (fun file =>
       process_file fuel E file output_dir input_dir rename_with_pid
         country_mapping)
    batch.

Definition process_batch (fuel : nat) (E : env) (batch : list string)
    (output_dir input_dir : string) (rename_with_pid : bool)
    (country_mapping : gmap string string) : M nat :=
  batch_results fuel E batch output_dir input_dir rename_with_pid
    country_mapping;;
  mret (length batch).

(** [[l[i:i+batch_size] for i in range(0, len(l), batch_size)]] *)
Fixpoint batches {A} (n : nat) (batch_size : nat) (l : list A)
  : list (list A) :=
  match n with
  | O => []
  | S n' =>
      match l with
      | [] => []
      | _ => take batch_size l :: batches n' batch_size (drop batch_size l)
      end
  end.

(** Lines 570 to 625 of [convert_folder_to_pdf]: the batches are run and
    the counts [successful] and [failed] are printed as they stand.
    The result is the printed pair; nothing is printed without Word
    documents. *)
Definition convert_word_files (fuel : nat) (E : env)
    (word_files : list string) (batch_size : nat)
    (output_dir input_dir : string) (rename_with_pid : bool)
    (country_mapping : gmap string string) : M (option (nat * nat)) :=
  match word_files with
  | [] => mret None
  | _ =>
      let successful := 0 in
      let failed := 0 in
      (foldM
         (fun (_ : unit) batch =>
            process_batch fuel E batch output_dir input_dir rename_with_pid
              country_mapping;;
            mret tt)
         tt (batches (length word_files) batch_size word_files);;
       mret (Some (successful, failed)))
  end.

(** A cell of the spreadsheet as pandas hands it over. *)
Inductive cell :=
| NaN
| Text (s : string)
| Int (n : nat).

(** [str(cell)] *)
Definition py_str (c : cell) : string :=
  match c with
  | NaN => "nan"
  | Text s => s
  | Int n => PyStr.str_of_nat n
  end.

(** The body of the loop over the rows (lines 937 to 954); [pd.isna] of a
    string is false. *)
Definition add_row (mapping : gmap string string) (row : cell * cell)
  : gmap string string :=
  let project_id := PyStr.strip (py_str row.1) in
  let country := PyStr.strip (py_str row.2) in
  if negb (PyStr.truthy project_id) || negb (PyStr.truthy country)
  then mapping
  else
    let project_id :=
      if PyStr.truthy project_id
         && negb (PyStr.startswith "P" project_id)
         && PyStr.isdigit project_id
      then "P" +:+ project_id else project_id in
    let project_id := Re.strip_non_pid_chars project_id in
    match Re.re_match Re.pid_digits project_id with
    | Some _ => <[project_id := country]> mapping
    | None => mapping
    end.

(** [load_project_country_mapping], from the rows of the two chosen
    columns on. *)
Definition load_project_country_mapping (rows : list (cell * cell))
  : gmap string string :=
  fold_left add_row rows ∅.

(** [parts[1:-1]] *)
Definition middle {A} (parts : list A) : list A :=
  drop 1 (take (length parts - 1) parts).

Definition new_parts_in_loop (parts : list string) (country : string)
    (counter : nat) : list string :=
  let parts0 := hd "" parts in
  if (1 <? length parts)%nat && PyStr.endswith ".pdf" (List.last parts "")
  then
    let base := hd "" (PyStr.split_char "." (List.last parts "")) in
    if PyStr.isdigit base then [parts0; country] ++ tl parts
    else [parts0; country] ++ middle parts
           ++ [PyStr.fmt_02d counter +:+ ".pdf"]
  else [parts0; country] ++ tl parts ++ [PyStr.fmt_02d counter +:+ ".pdf"].

(** [while os.path.exists(new_path) and new_path != pdf_file: ...],
    returning [new_filename] and [new_path] as the loop leaves them. *)
Fixpoint dedup_loop (fuel : nat) (w : world) (parts : list string)
    (country pdf_file dirname : string) (counter : nat)
    (new_filename new_path : string) : option (string * string) :=
  match fuel with
  | O => None
  | S fuel' =>
      if Os.path_exists w new_path && negb (String.eqb new_path pdf_file)
      then
        let new_filename :=
          PyStr.join_with "_" (new_parts_in_loop parts country counter) in
        dedup_loop fuel' w parts country pdf_file dirname (S counter)
          new_filename (OsPath.join dirname new_filename)
      else Some (new_filename, new_path)
  end.

(** What the pass decides from the name of a file alone: the parts of
    the name and the country to insert, when the file is to be renamed. *)
Definition rename_plan (country_mapping : gmap string string)
    (filename : string) : option (string * string * list string) :=
  match Re.re_search Re.pid_digits filename with
  | Some project_id =>
      match country_mapping !! project_id with
      | Some c =>
          let country := PyStr.replace_char " " "_" c in
          if negb (PyStr.contains country filename) then
            let parts :=
              if PyStr.contains "_" filename
              then PyStr.split_char "_" filename
              else [PyStr.drop_last 4 filename] in
            if String.eqb (hd "" parts) project_id
            then Some (project_id, country, parts)
            else None
          else None
      | None => None
      end
  | None => None
  end.

Definition first_new_filename (project_id country : string)
    (parts : list string) : string :=
  if (1 <? length parts)%nat
  then PyStr.join_with "_" ([hd "" parts; country] ++ tl parts)
  else project_id +:+ "_" +:+ country +:+ ".pdf".

(** The body of the loop over the files of the pass (lines 997 to 1053). *)
Definition reconcile_one (fuel : nat)
    (country_mapping : gmap string string) (updated_count : nat)
    (pdf_file : string) : M nat :=
  let filename := OsPath.basename pdf_file in
  let dirname := OsPath.dirname pdf_file in
  match rename_plan country_mapping filename with
  | Some (project_id, country, parts) =>
      let new_filename := first_new_filename project_id country parts in
      let new_path := OsPath.join dirname new_filename in
      (w ← get_world;
       match dedup_loop fuel w parts country pdf_file dirname 1
               new_filename new_path with
       | Some (new_filename, new_path) =>
           try_except
             (Os.rename pdf_file new_path;; mret (updated_count + 1))
             (fun _ => mret updated_count)
       | None => out_of_fuel
       end)
  | None => mret updated_count
  end.

Definition apply_country_mapping_to_existing_files (fuel : nat) (E : env)
    (output_dir : string) (country_mapping : gmap string string) : M nat :=
  if bool_decide (country_mapping = ∅) then mret 0
  else
    w ← get_world;
    let pdf_files :=
      filter (fun p => is_pdf_name (OsPath.basename p))
        (walk_files E w output_dir) in
    foldM (reconcile_one fuel country_mapping) 0 pdf_files.

(** [get_optimal_workers], from the value of [os.cpu_count()], which is
    [None] when the count cannot be found. *)
Definition get_optimal_workers (os_cpu_count : option nat) : nat :=
  let cpu_count :=
    match os_cpu_count with
    | Some (S n) => S n
    | _ => 4
    end in
  max 2 (min 4 (cpu_count / 2)).

(** [a < b] on rationals. *)
Definition Qltb (a b : QArith_base.Q) : bool := negb (QArith_base.Qle_bool b a).

(** [get_optimal_batch_size], from [psutil.virtual_memory().total] (in
    bytes), which is [None] when [psutil] cannot be imported.  The quotient
    by [1024**3] is the exact one: the bounds it is compared with are powers
    of two, on which the floating-point quotient falls on the same side. *)
Definition get_optimal_batch_size (psutil_total : option N) : nat :=
  let default_batch_size := 20 in
  match psutil_total with
  | Some total =>
      let total_memory_gb :=
        QArith_base.Qdiv (QArith_base.inject_Z (Z.of_N total))
          (QArith_base.inject_Z (1024 ^ 3)) in
      if Qltb total_memory_gb (QArith_base.inject_Z 4) then 10
      else if Qltb total_memory_gb (QArith_base.inject_Z 8) then 20
      else if Qltb total_memory_gb (QArith_base.inject_Z 16) then 50
      else 100
  | None => default_batch_size
  end.

Definition is_word_name (file : string) : bool :=
  let lower_file := PyStr.lower file in
  PyStr.endswith ".docx" lower_file || PyStr.endswith ".doc" lower_file.

(** [if country_mapping: apply_country_mapping_to_existing_files(...)] *)
Definition finalize_countries (fuel : nat) (E : env) (output_dir : string)
    (country_mapping : gmap string string) : M unit :=
  if bool_decide (country_mapping = ∅) then mret tt
  else
    apply_country_mapping_to_existing_files fuel E output_dir country_mapping;;
    mret tt.

(** [convert_folder_to_pdf] from line 552 on, where the two directories and
    the mapping are known (a mapping that was not loaded counts as the
    empty one); the result is the exit code.  The test of line 658 reads
    [successful], a name that is bound only in the branch taken when there
    are Word documents. *)
Definition convert_folder_to_pdf (fuel : nat) (E : env)
    (psutil_total : option N) (input_dir output_dir : string)
    (rename_with_pid : bool) (country_mapping : gmap string string) : M nat :=
  Os.makedirs output_dir;;
  w ← get_world;
  let word_files :=
    filter (fun p => is_word_name (OsPath.basename p))
      (walk_files E w input_dir) in
  let batch_size := get_optimal_batch_size psutil_total in
  printed ← convert_word_files fuel E word_files batch_size output_dir
              input_dir rename_with_pid country_mapping;
  copy_existing_pdfs fuel E input_dir output_dir rename_with_pid
    country_mapping;;
  finalize_countries fuel E output_dir country_mapping;;
  match printed with
  | None => raise "local variable 'successful' referenced before assignment"
  | Some _ =>
      finalize_countries fuel E output_dir country_mapping;;
      mret 0
  end.

End WordToPdf.

(** ** PID_RENAME.py *)

Module PidRename.

Definition convert_word_to_pdf (E : env) (word_path : string)
  : M (option string) :=
  try_except
    (let pdf_path := OsPath.with_suffix word_path ".pdf" in
     match docx2pdf_convert E word_path with
     | inl doc => Os.save pdf_path (Pdf doc);; mret (Some pdf_path)
     | inr e => raise e
     end)
    (fun _ => mret None).

Fixpoint search_pages (pages : list page) : M (option string) :=
  match pages with
  | [] => mret None
  | None :: _ => raise "extract_text failed"
  | Some text :: rest =>
      match Re.re_search Re.pid_digits text with
      | Some pid => mret (Some pid)
      | None => search_pages rest
      end
  end.

Definition extract_project_id (pdf_path : string) : M (option string) :=
  try_except
    (pages ← Os.read_pdf pdf_path;
     let pages_to_search := min (length pages) 10 in
     search_pages (take pages_to_search pages))
    (fun _ => mret None).

(** [while new_path.exists(): ...] of [process_and_rename_document],
    returning [new_filename] and [new_path] as the loop leaves them. *)
Fixpoint name_loop (fuel : nat) (w : world) (folder project_id : string)
    (counter : nat) (new_filename new_path : string)
  : option (string * string) :=
  match fuel with
  | O => None
  | S fuel' =>
      if Os.path_exists w new_path then
        let new_filename :=
          project_id +:+ "_" +:+ PyStr.str_of_nat counter +:+ ".pdf" in
        name_loop fuel' w folder project_id (S counter) new_filename
          (OsPath.join folder new_filename)
      else Some (new_filename, new_path)
  end.

(** The new name and path for an identifier (lines 93 to 101). *)
Definition new_name (fuel : nat) (folder project_id : string)
  : M (string * string) :=
  fun w =>
    let new_filename := project_id +:+ ".pdf" in
    match name_loop fuel w folder project_id 1 new_filename
            (OsPath.join folder new_filename) with
    | Some r => (Ret r, w)
    | None => (OutOfFuel, w)
    end.

(** [Path(p).suffix] *)
Definition suffix (p : string) : string :=
  let name := OsPath.basename p in
  match OsPath.split_last_dot name with
  | Some (b, e) =>
      if PyStr.truthy b && (1 <? String.length e)%nat then e else ""
  | None => ""
  end.

Definition cleanup (converted_pdf : option string) : M unit :=
  match converted_pdf with
  | Some p => if PyStr.truthy p then Os.unlink p else mret tt
  | None => mret tt
  end.

(** The part of [process_and_rename_document] after the conversion. *)
Definition rename_or_discard (fuel : nat) (doc_path folder pdf_path : string)
    (is_word : bool) (converted_pdf : option string) : M bool :=
  try_except
    (project_id ← extract_project_id pdf_path;
     if truthy_opt project_id then
       '(new_filename, new_path) ← new_name fuel folder (default "" project_id);
       (if is_word then
          Os.rename (default "" converted_pdf) new_path;;
          Os.unlink doc_path
        else Os.rename doc_path new_path);;
       mret true
     else
       cleanup converted_pdf;;
       mret false)
    (fun _ =>
       try_except (cleanup converted_pdf) (fun _ => mret tt);;
       mret false).

Definition process_and_rename_document (fuel : nat) (E : env)
    (doc_path folder : string) : M bool :=
  let pdf_path := doc_path in
  let is_word :=
    bool_decide (PyStr.lower (suffix doc_path) ∈ [".doc"; ".docx"]) in
  if is_word then
    converted_pdf ← convert_word_to_pdf E doc_path;
    if negb (truthy_opt converted_pdf) then mret false
    else
      rename_or_discard fuel doc_path folder (default "" converted_pdf)
        is_word converted_pdf
  else rename_or_discard fuel doc_path folder pdf_path is_word None.

(** The body of the loop of [rename_documents_with_project_ids]. *)
Definition count_document (fuel : nat) (E : env) (folder : string)
    (counts : nat * nat) (doc_file : string) : M (nat * nat) :=
  let '(successful_processes, total_docs) := counts in
  let total_docs := total_docs + 1 in
  ok ← process_and_rename_document fuel E doc_file folder;
  if (ok : bool) then mret (successful_processes + 1, total_docs)
  else mret (successful_processes, total_docs).

(** [glob w folder pattern] is what [folder.glob(pattern)] lists in the
    world [w]; the listing is read when the loop over it starts. *)
Definition rename_documents_with_project_ids (fuel : nat) (E : env)
    (glob : world → string → string → list string) (folder_path : string)
  : M (nat * nat) :=
  let folder := folder_path in
  e ← Os.exists_ folder;
  if negb e then raise ("Folder not found: " +:+ folder_path)
  else
    foldM
      (fun counts pattern =>
         w ← get_world;
         foldM (count_document fuel E folder) counts (glob w folder pattern))
      (0, 0) ["*.pdf"; "*.doc"; "*.docx"].

End PidRename.

(** ** docx2pdf_converter.py *)

Module Docx2pdfConverter.

Definition libreoffice_paths : list string :=
  [ "C:\Program Files\LibreOffice\program\soffice.exe";
    "C:\Program Files (x86)\LibreOffice\program\soffice.exe" ].

Definition find_soffice (E : env) (w : world) : option string :=
  if String.eqb (platform_system E) "Windows"
  then head (filter (fun p => Os.path_exists w p) libreoffice_paths)
  else if String.eqb (platform_system E) "Darwin"
  then Some "/Applications/LibreOffice.app/Contents/MacOS/soffice"
  else Some "libreoffice".

(** [convert_with_libreoffice(input_file, output_file)]; LibreOffice
    writes [<stem of the input>.pdf] into the output directory. *)
Definition convert_with_libreoffice (E : env)
    (input_file output_file : string) : M string :=
  w ← get_world;
  if negb (truthy_opt (find_soffice E w))
  then raise "LibreOffice executable not found"
  else
    let output_dir :=
      if PyStr.truthy (OsPath.dirname output_file)
      then OsPath.dirname output_file else "." in
    match soffice_run E input_file with
    | inr stderr => raise ("LibreOffice conversion failed: " +:+ stderr)
    | inl doc =>
        Os.save (OsPath.join output_dir (OsPath.stem input_file +:+ ".pdf"))
          (Pdf doc);;
        let default_output :=
          OsPath.with_suffix
            (OsPath.join output_dir (OsPath.stem input_file)) ".pdf" in
        (e ← Os.exists_ default_output;
         if negb (String.eqb output_file default_output) && e
         then Os.rename default_output output_file;; mret output_file
         else mret output_file)
    end.

(** The loop over the attempts is the one of [word_to_pdf.py]; the two
    copies differ in the arguments of [doc.Close] only. *)
Definition convert_with_word (E : env) (input_file output_file : string)
    (retries : nat) : M string :=
  WordToPdf.word_attempts E input_file output_file retries 0 (S retries).

Definition process_file (E : env) (file_path output_dir : string)
  : M (string * bool * option string) :=
  try_except
    (let input_path := file_path in
     let output_name := OsPath.stem file_path +:+ ".pdf" in
     let output_path := OsPath.join output_dir output_name in
     if negb (String.eqb (platform_system E) "Windows")
     then raise "Microsoft Word conversion requires Windows"
     else
       convert_with_word E input_path output_path 2;;
       mret (file_path, true, None))
    (fun e => mret (file_path, false, Some e)).

(** One step of the loop over the results of a batch in [main]. *)
Definition count_result (counts : nat * nat)
    (r : string * bool * option string) : nat * nat :=
  let '(successful, failed) := counts in
  let '(_, success, _) := r in
  if (success : bool) then (successful + 1, failed)
  else (successful, failed + 1).

(** The counts that [main] prints, from the results of all batches. *)
Definition main_counts (results : list (string * bool * option string))
  : nat * nat :=
  fold_left count_result results (0, 0).

(** The arguments of the command line that [main] uses; [--max-retries] is
    parsed and not used. *)
Record arguments := Arguments_ {
  input_dir : string;
  output_dir : option string;
  workers : Z;
  batch_size : Z
}.

(** [[l[i:i+batch_size] for i in range(0, len(l), batch_size)]] for an
    integer step: [range] refuses the step zero and is empty for a
    negative one. *)
Definition batches_of {A} (batch_size : Z) (l : list A) : M (list (list A)) :=
  if (batch_size =? 0)%Z then raise "range() arg 3 must not be zero"
  else if (batch_size <? 0)%Z then mret []
  else mret (WordToPdf.batches (length l) (Z.to_nat batch_size) l).

(** [ProcessPoolExecutor(max_workers=workers)] on Windows *)
Definition process_pool (workers : Z) : M unit :=
  if (workers <=? 0)%Z then raise "max_workers must be greater than 0"
  else if (61 <? workers)%Z then raise "max_workers must be <= 61"
  else mret tt.

Definition is_docx_name (file : string) : bool :=
  PyStr.endswith ".docx" (PyStr.lower file).

(** One batch of [main]: the results of its files are counted as they
    arrive.  The workers of the pool are run one after the other. *)
Definition run_batch (E : env) (args : arguments) (output_dir : string)
    (counts : nat * nat) (batch : list string) : M (nat * nat) :=
  process_pool (workers args);;
  results ← mapM' (fun file => process_file E file output_dir) batch;
  mret (fold_left count_result results counts).

(** [main]: the exit code, and the two counts when they are printed. *)
Definition main (E : env) (args : arguments) : M (nat * option (nat * nat)) :=
  if negb (String.eqb (platform_system E) "Windows") then mret (1, None)
  else
    w ← get_world;
    if negb (Os.is_dir w (input_dir args)) then mret (1, None)
    else
      let output_dir :=
        if truthy_opt (output_dir args) then default "" (output_dir args)
        else input_dir args in
      (e ← Os.exists_ output_dir;
       (if negb e then Os.makedirs output_dir else mret tt);;
       w ← get_world;
       let docx_files :=
         filter (fun p => is_docx_name (OsPath.basename p))
           (walk_files E w (input_dir args)) in
       match docx_files with
       | [] => mret (0, None)
       | _ =>
           bs ← batches_of (batch_size args) docx_files;
           counts ← foldM (run_batch E args output_dir) (0, 0) bs;
           mret (0, Some counts)
       end).

End Docx2pdfConverter.

(** ** Vocabulary of the statements *)

(** The names in use: those of the files and of the directories. *)
Definition occupied (w : world) : gset string := dom (files w) ∪ dirs w.

(** Reading a padded number back: leading zeros do not count. *)
Definition read_nat (s : string) : option nat :=
  Nat.of_uint <$> NilEmpty.uint_of_string s.

(** The decimal digit [d] as a character. *)
Definition digit_char (d : nat) : ascii := ascii_of_nat (48 + d).

(** The path that [get_unique_filename] tries for a counter. *)
Definition counter_name (base_path : string) (counter : nat) : string :=
  let '(name, ext) := OsPath.splitext (OsPath.basename base_path) in
  OsPath.join (OsPath.dirname base_path)
    (name +:+ "_" +:+ PyStr.fmt_02d counter +:+ ext).

(** The file name that the loop of [PID_RENAME.py] tries for a counter. *)
Definition plain_counter_name (project_id : string) (counter : nat) : string :=
  project_id +:+ "_" +:+ PyStr.str_of_nat counter +:+ ".pdf".

(** The world after a file has been created at [p]. *)
Definition created (p : string) (c : content) (w w' : world) : Prop :=
  files w' = <[p := c]> (files w) ∧ dirs w' = dirs w.

(** [s[n:]] *)
Fixpoint drop_str (n : nat) (s : string) : string :=
  match n, s with
  | O, _ => s
  | S n', String _ r => drop_str n' r
  | S _, "" => ""
  end.

(** [s[:n]] *)
Fixpoint take_str (n : nat) (s : string) : string :=
  match n, s with
  | O, _ => ""
  | S n', String c r => String c (take_str n' r)
  | S _, "" => ""
  end.

(** The text [m] has one character for each class of the pattern, in the
    class. *)
Definition matches (pat : Re.pattern) (m : string) : Prop :=
  Forall2 (fun (cls : ascii → bool) c => cls c = true) pat
    (list_ascii_of_string m).

(** The pattern matches the substring [m] of [s] that starts at offset [i]. *)
Definition occurs_at (pat : Re.pattern) (s : string) (i : nat) (m : string)
  : Prop :=
  ∃ pre post, s = pre +:+ m +:+ post ∧ String.length pre = i ∧ matches pat m.

(** [m] is the leftmost match of the pattern in [s]. *)
Definition first_occurrence (pat : Re.pattern) (s m : string) : Prop :=
  ∃ i, occurs_at pat s i m ∧ ∀ j m', j < i → ¬ occurs_at pat s j m'.




(** The pages of the file at [p], when it is a PDF that can be parsed. *)
Definition pages_of (w : world) (p : string) : option (list page) :=
  match files w !! p with
  | Some (Pdf (Some pages)) => Some pages
  | _ => None
  end.

(** The loop over the pages of both extractors: the first match of the
    first page that has one, passed through [norm]. *)
Fixpoint scan_pages (pat : Re.pattern) (norm : string → string)
    (pages : list page) : M (option string) :=
  match pages with
  | [] => mret None
  | None :: _ => raise "extract_text failed"
  | Some text :: rest =>
      match Re.re_search pat text with
      | Some pid => mret (Some (norm pid))
      | None => scan_pages pat norm rest
      end
  end.



(** [os.path.relpath(path, start)] for a path at or below [start]. *)
Definition relpath_below (path start : string) : string :=
  if String.eqb path start then "."
  else if PyStr.startswith (start +:+ "/") path
  then drop_str (String.length start + 1) path
  else path.

(** An environment on Windows in which Word saves a PDF of one page without
    identifier, every text is detected as English, LibreOffice and docx2pdf
    do the same as Word, and the walk lists the files in the order of the
    map. *)
Definition plain_env : env :=
  Env "Windows"
    (fun _ _ => inl (Some [Some "nothing to see"]))
    (fun _ => Some "en")
    (fun _ => inl (Some [Some "nothing to see"]))
    (fun _ => inl (Some [Some "nothing to see"]))
    relpath_below
    (fun w top =>
       filter (fun p => PyStr.startswith (top +:+ "/") p)
         (map_to_list (files w)).*1).

(** [P] and six digits, and nothing else. *)
Definition is_project_id (k : string) : Prop := matches Re.pid_digits k.

(** How many results have the given success flag. *)
Definition count_flag {A B} (flag : bool) (results : list (A * bool * B))
  : nat :=
  length (List.filter (fun r => Bool.eqb r.1.2 flag) results).

(** An environment on Windows in which Word saves a one-page PDF that names
    the project [P654321], except for [in/bad.docx], on which every attempt
    fails. *)
Definition project_env : env :=
  Env "Windows"
    (fun input _ =>
       if String.eqb input "in/bad.docx" then inr "Word is stuck"
       else inl (Some [Some "Project P654321 appraisal"]))
    (fun _ => Some "en")
    (fun _ => inl (Some [Some "Project P654321 appraisal"]))
    (fun _ => inl (Some [Some "Project P654321 appraisal"]))
    relpath_below
    (fun w top =>
       filter (fun p => PyStr.startswith (top +:+ "/") p)
         (map_to_list (files w)).*1).

(** An empty output directory [out]. *)
Definition empty_out : world := World ∅ {[ "out" ]} ∅ [].

(** The same, where the operating system refuses to move [p]. *)
Definition empty_out_locking (p : string) : world :=
  World ∅ {[ "out" ]} {[ p ]} [].

(** An output directory in which both [P123456_01.pdf] and the name it
    would get with its country are present. *)
Definition stuck_world : world :=
  World {[ "out/P123456_01.pdf" := Pdf (Some []);
           "out/P123456_Kenya_01.pdf" := Pdf (Some []) ]}
    {[ "out" ]} ∅ [].

Definition kenya : gmap string string := {[ "P123456" := "Kenya" ]}.

(** No write so far has replaced a file other than its own source. *)
Definition safe (w : world) : Prop :=
  Forall (fun e => clobbers e = false) (trace w).

(** The worlds agree on everything but the trace and the directories. *)
Definition same_files (w w' : world) : Prop :=
  files w' = files w ∧ locked w' = locked w ∧ trace w' = trace w.

(** An environment on Linux in which LibreOffice writes a one-page PDF. *)
Definition linux_env : env :=
  Env "Linux"
    (fun _ _ => inr "no Word here")
    (fun _ => None)
    (fun _ => inl (Some [Some "the new text"]))
    (fun _ => inr "no Word here")
    relpath_below
    (fun w top =>
       filter (fun p => PyStr.startswith (top +:+ "/") p)
         (map_to_list (files w)).*1).

(** An output directory that holds [b.pdf] and [report.pdf]. *)
Definition taken_world : world :=
  World {[ "out/b.pdf" := Pdf (Some [Some "the old text"]);
           "out/report.pdf" := Pdf (Some [Some "the old text"]) ]}
    {[ "out"; "in" ]} ∅ [].

(** A folder [d] that holds the Word document [a.docx]. *)
Definition word_folder : world :=
  World {[ "d/a.docx" := WordDoc ]} {[ "d" ]} ∅ [].







(** An output directory with one file to which the country is to be
    added. *)
Definition untagged_world : world :=
  World {[ "out/P123456_EN.pdf" := Pdf (Some []) ]} {[ "out" ]} ∅ [].



(** A directory [out] in which [a.pdf] is taken. *)
Definition one_pdf_world : world :=
  World {[ "out/a.pdf" := Pdf None ]} {[ "out" ]} ∅ [].



(** The number of files and directories: more fuel than this lets every
    probing loop find its free name. *)
Definition weight (w : world) : nat := size (files w) + size (dirs w).

(** Every file of [w] is still in [w'], with its content. *)
Definition keeps (w w' : world) : Prop := files w ⊆ files w'.

(** Every file of [w] is in [w'] with its content, under its name or
    another one, and no two files of [w] have the same place in [w']. *)
Definition relocated (w w' : world) : Prop :=
  ∃ f : string → string,
    (∀ p c, files w !! p = Some c → files w' !! f p = Some c)
    ∧ ∀ p q, is_Some (files w !! p) → is_Some (files w !! q) →
             f p = f q → p = q.

(** What a pass that only renames does: the files are relocated, none is
    added, and the directories stay. *)
Definition renaming (w w' : world) : Prop :=
  relocated w w' ∧ size (files w') = size (files w) ∧ dirs w' = dirs w.


(** The world in which [main] of [docx2pdf_converter.py] looks for its
    files: the output directory has been made when it was missing. *)
Definition with_output_dir (d : string) (w : world) : world :=
  if Os.path_exists w d then w else (Os.makedirs d w).2.

(** The characters that the cleaning of an identifier keeps. *)
Definition pid_char (c : ascii) : bool := Ascii.eqb c "P" || PyStr.is_digit c.

(** * Properties *)

(** ** Strings *)

Section StringFacts.

Lemma app_cons (c : ascii) (s t : string) :
  String c s +:+ t = String c (s +:+ t).
Proof. reflexivity. Qed.


Lemma app_assoc' (s t u : string) : (s +:+ t) +:+ u = s +:+ (t +:+ u).
Proof. induction s as [|c s IH]; [done|]. by rewrite !app_cons, IH. Qed.

Lemma length_app' (s t : string) :
  String.length (s +:+ t) = String.length s + String.length t.
Proof.
  induction s as [|c s IH]; [done|]. rewrite app_cons. simpl. by rewrite IH.
Qed.

Lemma app_inv_tail' (s t u : string) : s +:+ u = t +:+ u → s = t.
Proof.
  revert t. induction s as [|c s IH]; intros [|d t] H.
  - done.
  - apply (f_equal String.length) in H.
    rewrite !length_app' in H. simpl in H. lia.
  - apply (f_equal String.length) in H.
    rewrite !length_app' in H. simpl in H. lia.
  - rewrite !app_cons in H. injection H as -> H. f_equal. by apply IH.
Qed.

Lemma length_replicate_char (n : nat) (c : ascii) :
  String.length (PyStr.replicate_char n c) = n.
Proof. induction n; simpl; congruence. Qed.

Lemma length_zero_pad (w n : nat) :
  (w ≤ String.length (PyStr.zero_pad w n))%nat.
Proof.
  unfold PyStr.zero_pad. rewrite length_app', length_replicate_char. lia.
Qed.

Lemma str_of_nat_inj : Inj (=) (=) PyStr.str_of_nat.
Proof.
  intros n m H. unfold PyStr.str_of_nat in H.
  assert (Nat.to_uint n = Nat.to_uint m) as Hu.
  { apply (f_equal NilEmpty.uint_of_string) in H.
    rewrite !NilEmpty.usu in H. congruence. }
  apply (f_equal Nat.of_uint) in Hu.
  by rewrite !DecimalNat.Unsigned.of_to in Hu.
Qed.

Lemma read_str_of_nat (n : nat) : read_nat (PyStr.str_of_nat n) = Some n.
Proof.
  unfold read_nat, PyStr.str_of_nat.
  by rewrite NilEmpty.usu; simpl; rewrite DecimalNat.Unsigned.of_to.
Qed.

Lemma read_nat_zero (s : string) (n : nat) :
  read_nat s = Some n → read_nat (String "0" s) = Some n.
Proof.
  unfold read_nat. simpl.
  destruct (NilEmpty.uint_of_string s) as [d|]; [|done]. simpl.
  intros [= <-]. done.
Qed.

Lemma read_zero_pad (w n : nat) : read_nat (PyStr.zero_pad w n) = Some n.
Proof.
  unfold PyStr.zero_pad.
  induction (w - String.length (PyStr.str_of_nat n)) as [|k IH]; simpl.
  - apply read_str_of_nat.
  - rewrite app_cons. by apply read_nat_zero.
Qed.

Lemma fmt_02d_inj : Inj (=) (=) PyStr.fmt_02d.
Proof.
  intros n m H. apply (f_equal read_nat) in H.
  unfold PyStr.fmt_02d in H. rewrite !read_zero_pad in H. congruence.
Qed.

Lemma eqb_true_iff (s t : string) : String.eqb s t = true ↔ s = t.
Proof. apply String.eqb_eq. Qed.


End StringFacts.

(** ** Counting loops and free names *)

Section Counting.

Lemma first_counter_Some (fuel : nat) (ok : nat → bool) (start k : nat) :
  first_counter fuel ok start = Some k →
  ok k = true ∧ start ≤ k ∧ ∀ j, start ≤ j < k → ok j = false.
Proof.
  revert start. induction fuel as [|fuel IH]; intros start; simpl; [done|].
  destruct (ok start) eqn:Hs.
  - intros [= <-]. split_and!; [done|lia|]. intros j ?. lia.
  - intros H. apply IH in H as (Hk & Hle & Hlt). split_and!; [done|lia|].
    intros j Hj. destruct (decide (j = start)) as [->|]; [done|].
    apply Hlt. lia.
Qed.

Lemma first_counter_finds (fuel : nat) (ok : nat → bool) (start k : nat) :
  start ≤ k < start + fuel → ok k = true →
  ∃ k', first_counter fuel ok start = Some k' ∧ k' ≤ k.
Proof.
  revert start. induction fuel as [|fuel IH]; intros start Hk Hok; [lia|].
  simpl. destruct (ok start) eqn:Hs.
  - exists start. split; [done|lia].
  - destruct (decide (k = start)) as [->|]; [congruence|].
    apply IH; [lia|done].
Qed.

Lemma path_exists_occupied (w : world) (p : string) :
  Os.path_exists w p = true ↔ p ∈ occupied w.
Proof.
  unfold Os.path_exists, Os.is_file, Os.is_dir, occupied.
  rewrite orb_true_iff, !bool_decide_eq_true, elem_of_union, elem_of_dom.
  done.
Qed.

Lemma is_free_not_occupied (w : world) (p : string) :
  is_free w p = true ↔ p ∉ occupied w.
Proof.
  unfold is_free. rewrite negb_true_iff, <- not_true_iff_false.
  by rewrite path_exists_occupied.
Qed.

Lemma size_occupied (w : world) :
  size (occupied w) ≤ size (files w) + size (dirs w).
Proof.
  unfold occupied. rewrite size_union_alt, size_dom.
  assert (size (dirs w ∖ dom (files w)) ≤ size (dirs w)); [|lia].
  apply subseteq_size. by intros x [? _]%elem_of_difference.
Qed.

(** Among more distinct names than a set has elements, one is not in
    the set. *)
Lemma free_candidate (X : gset string) (cand : nat → string) :
  Inj (=) (=) cand → ∃ k, 1 ≤ k ≤ S (size X) ∧ cand k ∉ X.
Proof.
  intros Hinj.
  destruct (decide (Forall (fun k => cand k ∈ X) (seq 1 (S (size X)))))
    as [Hall|Hnot].
  - exfalso.
    assert (NoDup (cand <$> seq 1 (S (size X)))) as Hnd.
    { apply (NoDup_fmap_2 _), NoDup_seq. }
    assert (list_to_set (C := gset string) (cand <$> seq 1 (S (size X))) ⊆ X)
      as Hsub.
    { intros p. rewrite elem_of_list_to_set, list_elem_of_fmap.
      intros (k & -> & Hk). rewrite Forall_forall in Hall. by apply Hall. }
    apply subseteq_size in Hsub.
    rewrite size_list_to_set, length_fmap, length_seq in Hsub; [lia|done].
  - apply not_Forall_Exists in Hnot; [|apply _].
    apply Exists_exists in Hnot as (k & Hk & Hfree).
    apply elem_of_seq in Hk. exists k. split; [lia|done].
Qed.

Lemma while_counter_stops (fuel : nat) (cand : nat → string)
    (stop : world → string → bool) (w : world) :
  Inj (=) (=) cand →
  (∀ p, is_free w p = true → stop w p = true) →
  size (files w) + size (dirs w) < fuel →
  ∃ k, 1 ≤ k
    ∧ while_counter fuel cand stop w = (Ret (cand k), w)
    ∧ stop w (cand k) = true
    ∧ ∀ j, 1 ≤ j < k → stop w (cand j) = false.
Proof.
  intros Hinj Hstop Hfuel.
  destruct (free_candidate (occupied w) cand Hinj) as (k & Hk & Hfree).
  pose proof (size_occupied w) as Hsize.
  destruct (first_counter_finds fuel (fun c => stop w (cand c)) 1 k)
    as (k' & Hfirst & Hle).
  { lia. }
  { apply Hstop. by apply is_free_not_occupied. }
  pose proof (first_counter_Some _ _ _ _ Hfirst) as (Hok & H1 & Hlt).
  exists k'. unfold while_counter. rewrite Hfirst. done.
Qed.

End Counting.

(** ** Paths *)

Section PathFacts.

Lemma startswith_sep_app (p x : string) :
  PyStr.truthy p = true →
  PyStr.startswith "/" (p +:+ x) = PyStr.startswith "/" p.
Proof.
  destruct p as [|c r]; [done|]. intros _. rewrite app_cons.
  done.
Qed.

Lemma join_app_r (a p x : string) :
  PyStr.truthy p = true →
  OsPath.join a (p +:+ x) = OsPath.join a p +:+ x.
Proof.
  intros Hp. unfold OsPath.join. rewrite startswith_sep_app by done.
  destruct (PyStr.startswith "/" p); [done|].
  destruct (negb (PyStr.truthy a) || OsPath.ends_with_sep a).
  - by rewrite app_assoc'.
  - by rewrite !app_assoc'.
Qed.

Lemma truthy_app_r (s t : string) :
  PyStr.truthy t = true → PyStr.truthy (s +:+ t) = true.
Proof. destruct s; [done|]. by rewrite app_cons. Qed.

(** Names that differ in their counter only are different paths. *)
Lemma join_counter_inj (a pre suf : string) (f : nat → string) :
  Inj (=) (=) f → PyStr.truthy pre = true →
  Inj (=) (=) (fun k => OsPath.join a (pre +:+ f k +:+ suf)).
Proof.
  intros Hf Hpre k1 k2 H. rewrite !join_app_r in H by done.
  apply (inj _) in H. apply app_inv_tail' in H. by apply Hf.
Qed.

End PathFacts.

(** ** Unique names *)

Section UniqueNames.

Lemma fmt_02d_two_digits (k : nat) :
  k < 100 →
  PyStr.fmt_02d k
  = String (digit_char (k / 10)) (String (digit_char (k mod 10)) "").
Proof.
  intros Hk.
  assert (forallb
            (fun k =>
               String.eqb (PyStr.fmt_02d k)
                 (String (digit_char (k / 10))
                    (String (digit_char (k mod 10)) "")))
            (seq 0 100) = true) as Hall by (vm_compute; reflexivity).
  rewrite forallb_forall in Hall.
  apply String.eqb_eq, Hall, in_seq. lia.
Qed.

Lemma counter_name_inj (base_path : string) :
  Inj (=) (=) (counter_name base_path).
Proof.
  unfold counter_name.
  destruct (OsPath.splitext (OsPath.basename base_path)) as [name ext].
  intros k1 k2 H.
  apply (join_counter_inj (OsPath.dirname base_path) (name +:+ "_") ext
           PyStr.fmt_02d fmt_02d_inj).
  - by apply truthy_app_r.
  - by rewrite !app_assoc'.
Qed.

Lemma get_unique_filename_spec (w : world) (base_path : string) (fuel : nat) :
  size (files w) + size (dirs w) < fuel →
  ∃ r, WordToPdf.get_unique_filename fuel base_path w = (Ret r, w)
    ∧ Os.path_exists w r = false
    ∧ (Os.path_exists w base_path = false → r = base_path)
    ∧ (Os.path_exists w base_path = true →
       ∃ k, 1 ≤ k ∧ r = counter_name base_path k
         ∧ ∀ j, 1 ≤ j < k →
             Os.path_exists w (counter_name base_path j) = true).
Proof.
  intros Hfuel.
  unfold WordToPdf.get_unique_filename, mbind, M_bind, bind, Os.exists_.
  destruct (Os.path_exists w base_path) eqn:Hex; simpl.
  - destruct (while_counter_stops fuel (counter_name base_path) is_free w)
      as (k & Hk & Hrun & Hfree & Hbelow);
      [apply counter_name_inj|done|done|].
    unfold counter_name in *.
    destruct (OsPath.splitext (OsPath.basename base_path)) as [name ext].
    eexists. split; [exact Hrun|]. split.
    { unfold is_free in Hfree. by apply negb_true_iff in Hfree. }
    split; [done|]. intros _. exists k. split_and!; [done|done|].
    intros j Hj. specialize (Hbelow j Hj). unfold is_free in Hbelow.
    by apply negb_false_iff in Hbelow.
  - exists base_path. split_and!; done.
Qed.

Lemma name_loop_counts (fuel : nat) (w : world) (folder pid : string)
    (c : nat) :
  PidRename.name_loop fuel w folder pid (S c) (plain_counter_name pid c)
    (OsPath.join folder (plain_counter_name pid c))
  = (fun k => (plain_counter_name pid k,
               OsPath.join folder (plain_counter_name pid k)))
    <$> first_counter fuel
          (fun k => is_free w (OsPath.join folder (plain_counter_name pid k)))
          c.
Proof.
  revert c. induction fuel as [|fuel IH]; intros c; simpl; [done|].
  unfold is_free at 1.
  destruct (Os.path_exists w _) eqn:Hex; simpl; [|done].
  apply (IH (S c)).
Qed.

Lemma plain_counter_path_inj (folder pid : string) :
  Inj (=) (=) (fun k => OsPath.join folder (plain_counter_name pid k)).
Proof.
  intros k1 k2 H. unfold plain_counter_name in H.
  apply (join_counter_inj folder (pid +:+ "_") ".pdf"
           PyStr.str_of_nat str_of_nat_inj).
  - by apply truthy_app_r.
  - by rewrite !app_assoc'.
Qed.

Lemma new_name_spec (w : world) (folder pid : string) (fuel : nat) :
  size (files w) + size (dirs w) < fuel →
  ∃ name, PidRename.new_name (S fuel) folder pid w
          = (Ret (name, OsPath.join folder name), w)
    ∧ Os.path_exists w (OsPath.join folder name) = false
    ∧ (Os.path_exists w (OsPath.join folder (pid +:+ ".pdf")) = false →
       name = pid +:+ ".pdf")
    ∧ (Os.path_exists w (OsPath.join folder (pid +:+ ".pdf")) = true →
       ∃ k, 1 ≤ k ∧ name = plain_counter_name pid k
         ∧ ∀ j, 1 ≤ j < k →
             Os.path_exists w (OsPath.join folder (plain_counter_name pid j))
             = true).
Proof.
  intros Hfuel. unfold PidRename.new_name. simpl.
  destruct (Os.path_exists w (OsPath.join folder (pid +:+ ".pdf"))) eqn:Hex.
  - fold (plain_counter_name pid 1). rewrite name_loop_counts.
    destruct (while_counter_stops fuel
                (fun k => OsPath.join folder (plain_counter_name pid k))
                is_free w)
      as (k & Hk & Hrun & Hfree & Hbelow);
      [apply plain_counter_path_inj|done|done|].
    unfold while_counter in Hrun.
    destruct (first_counter fuel _ 1) as [k'|] eqn:Hfirst; [|done].
    injection Hrun as Hrun. apply plain_counter_path_inj in Hrun as ->.
    simpl. exists (plain_counter_name pid k). split_and!; [done| |done|].
    { unfold is_free in Hfree. by apply negb_true_iff in Hfree. }
    intros _. exists k. split_and!; [done..|].
    intros j Hj. specialize (Hbelow j Hj). unfold is_free in Hbelow.
    by apply negb_false_iff in Hbelow.
  - exists (pid +:+ ".pdf"). split_and!; done.
Qed.

Lemma created_exists (p : string) (c : content) (w w' : world) :
  created p c w w' → Os.path_exists w' p = true.
Proof.
  intros [Hf _]. apply path_exists_occupied. unfold occupied.
  rewrite Hf, dom_insert_L. set_solver.
Qed.

End UniqueNames.


(** C1 (as amended).  In a world of fewer files and directories than
    [fuel], [get_unique_filename] of [word_to_pdf.py] returns a path that
    does not exist: the desired path when it is free, else the path with
    [_NN] before the extension, [NN] being the least counter from 1 on whose
    path is free, written in decimal with zeros up to two digits (and with
    three digits from 100 on); called again after a file has been created at
    the returned path, it returns another path.  The loop of
    [PID_RENAME.py] does the same with the counter written without
    padding. *)
Theorem C1_unique_name_contract (w : world) (fuel : nat) :
  size (files w) + size (dirs w) + 2 < fuel →
  (∀ base_path,
     ∃ r, WordToPdf.get_unique_filename fuel base_path w = (Ret r, w)
       ∧ Os.path_exists w r = false
       ∧ (Os.path_exists w base_path = false → r = base_path)
       ∧ (Os.path_exists w base_path = true →
          ∃ k, 1 ≤ k ∧ r = counter_name base_path k
            ∧ ∀ j, 1 ≤ j < k →
                Os.path_exists w (counter_name base_path j) = true)
       ∧ (∀ c w', created r c w w' →
          ∃ r', WordToPdf.get_unique_filename fuel base_path w' = (Ret r', w')
            ∧ r' ≠ r))
  ∧ (∀ folder pid,
       ∃ name, PidRename.new_name fuel folder pid w
               = (Ret (name, OsPath.join folder name), w)
         ∧ Os.path_exists w (OsPath.join folder name) = false
         ∧ (Os.path_exists w (OsPath.join folder (pid +:+ ".pdf")) = false →
            name = pid +:+ ".pdf")
         ∧ (Os.path_exists w (OsPath.join folder (pid +:+ ".pdf")) = true →
            ∃ k, 1 ≤ k ∧ name = plain_counter_name pid k
              ∧ ∀ j, 1 ≤ j < k →
                  Os.path_exists w
                    (OsPath.join folder (plain_counter_name pid j)) = true)
         ∧ (∀ c w', created (OsPath.join folder name) c w w' →
            ∃ name', PidRename.new_name fuel folder pid w'
                     = (Ret (name', OsPath.join folder name'), w')
              ∧ OsPath.join folder name' ≠ OsPath.join folder name))
  ∧ (∀ k, k < 100 →
       PyStr.fmt_02d k
       = String (digit_char (k / 10)) (String (digit_char (k mod 10)) ""))
  ∧ PyStr.fmt_02d 100 = "100".
Proof.
  intros Hfuel. split_and!.
  - intros base_path.
    destruct (get_unique_filename_spec w base_path fuel) as (r & Hr & Hfree & H0 & H1);
      [lia|].
    exists r. split_and!; [done..|].
    intros c w' Hc.
    assert (size (files w') + size (dirs w') < fuel) as Hfuel'.
    { destruct Hc as [-> ->].
      pose proof (map_size_insert r c (files w)) as Hs.
      destruct (files w !! r); simpl in Hs; unfold id in Hs; lia. }
    destruct (get_unique_filename_spec w' base_path fuel Hfuel')
      as (r' & Hr' & Hfree' & _).
    exists r'. split; [done|]. intros ->.
    apply created_exists in Hc. congruence.
  - intros folder pid. destruct fuel as [|fuel]; [lia|].
    destruct (new_name_spec w folder pid fuel) as (name & Hr & Hfree & H0 & H1);
      [lia|].
    exists name. split_and!; [done..|].
    intros c w' Hc.
    assert (size (files w') + size (dirs w') < fuel) as Hfuel'.
    { destruct Hc as [-> ->].
      pose proof (map_size_insert (OsPath.join folder name) c (files w)) as Hs.
      destruct (files w !! _); simpl in Hs; unfold id in Hs; lia. }
    destruct (new_name_spec w' folder pid fuel Hfuel')
      as (name' & Hr' & Hfree' & _).
    exists name'. split; [done|]. intros Heq. rewrite Heq in Hfree'.
    apply created_exists in Hc. congruence.
  - apply fmt_02d_two_digits.
  - reflexivity.
Qed.

Lemma C1_unique_name_contract_witness :
  ∃ r, WordToPdf.get_unique_filename 5 "out/a.pdf" one_pdf_world
       = (Ret r, one_pdf_world)
    ∧ Os.path_exists one_pdf_world r = false.
Proof.
  destruct (C1_unique_name_contract one_pdf_world 5) as [H _].
  - vm_compute. lia.
  - destruct (H "out/a.pdf") as (r & Hr & Hfree & _). exists r. by split.
Defined.

(** C1 as stated fails in [PID_RENAME.py]: with [P123456.pdf] taken, the
    loop returns [P123456_1.pdf], which is none of the names
    [P123456_NN.pdf] with a counter of two digits. *)
Lemma C1_counterexample :
  let w := World {[ "d/P123456.pdf" := Pdf None ]} {[ "d" ]} ∅ [] in
  PidRename.new_name 3 "d" "P123456" w
  = (Ret ("P123456_1.pdf", "d/P123456_1.pdf"), w)
  ∧ ∀ k, "P123456_1.pdf" ≠ "P123456" +:+ "_" +:+ PyStr.fmt_02d k +:+ ".pdf".
Proof.
  split; [by vm_compute|].
  intros k H. apply (f_equal String.length) in H.
  rewrite !length_app' in H. simpl in H.
  pose proof (length_zero_pad 2 k) as Hlen. unfold PyStr.fmt_02d in H. lia.
Qed.


(** ** Patterns and the identifier extractors *)

Section Extractors.

Lemma match_here_matches (pat : Re.pattern) (s m : string) :
  Re.match_here pat s = Some m ↔ ∃ rest, s = m +:+ rest ∧ matches pat m.
Proof.
  unfold matches. revert s m.
  induction pat as [|cls pat IH]; intros s m; simpl.
  - split.
    + intros [= <-]. exists s. split; [done|constructor].
    + intros (rest & -> & Hm). destruct m; [done|inversion Hm].
  - destruct s as [|c r].
    + split; [done|]. intros (rest & Hs & Hm).
      destruct m; [inversion Hm|done].
    + destruct (cls c) eqn:Hc.
      * split.
        -- destruct (Re.match_here pat r) as [m'|] eqn:Hr; [|done].
           intros [= <-]. apply IH in Hr as (rest & -> & Hm').
           exists rest. split; [done|]. simpl. by constructor.
        -- intros (rest & Hs & Hm). destruct m as [|d m]; [inversion Hm|].
           rewrite app_cons in Hs. injection Hs as -> ->.
           simpl in Hm. inversion Hm; subst.
           assert (Re.match_here pat (m +:+ rest) = Some m) as ->; [|done].
           apply IH. eauto.
      * split; [done|]. intros (rest & Hs & Hm).
        destruct m as [|d m]; [inversion Hm|].
        rewrite app_cons in Hs. injection Hs as -> ->.
        simpl in Hm. inversion Hm; subst. congruence.
Qed.

Lemma drop_str_app (pre x : string) :
  drop_str (String.length pre) (pre +:+ x) = x.
Proof. induction pre as [|c pre IH]; [by destruct x|]. by rewrite app_cons. Qed.

Lemma take_drop_str (i : nat) (s : string) :
  i ≤ String.length s →
  s = take_str i s +:+ drop_str i s ∧ String.length (take_str i s) = i.
Proof.
  revert s. induction i as [|i IH]; intros s Hi; [done|].
  destruct s as [|c r]; simpl in *; [lia|].
  destruct (IH r) as [Hr Hl]; [lia|]. rewrite app_cons, <- Hr, Hl. done.
Qed.

Lemma drop_str_all (i : nat) (s : string) :
  String.length s ≤ i → drop_str i s = "".
Proof.
  revert s. induction i as [|i IH]; intros [|c r] Hi; simpl in *;
    try done; try lia.
  apply IH. lia.
Qed.

Lemma occurs_at_match_here (pat : Re.pattern) (s : string) (i : nat)
    (m : string) :
  occurs_at pat s i m
  ↔ i ≤ String.length s ∧ Re.match_here pat (drop_str i s) = Some m.
Proof.
  split.
  - intros (pre & post & -> & <- & Hm). split.
    + rewrite length_app'. lia.
    + rewrite drop_str_app. apply match_here_matches. eauto.
  - intros [Hi Hm]. apply match_here_matches in Hm as (rest & Hs & Hm).
    destruct (take_drop_str i s Hi) as [Hcut Hlen].
    exists (take_str i s), rest. rewrite <- Hs. done.
Qed.

Lemma re_search_Some (pat : Re.pattern) (s m : string) :
  Re.re_search pat s = Some m → first_occurrence pat s m.
Proof.
  revert m. induction s as [|c r IH]; intros m; simpl.
  - destruct (Re.match_here pat "") as [m'|] eqn:H0; [|done].
    intros [= <-]. exists 0. split; [|intros; lia].
    apply occurs_at_match_here. split; [simpl; lia|done].
  - destruct (Re.match_here pat (String c r)) as [m'|] eqn:H0.
    + intros [= <-]. exists 0. split; [|intros; lia].
      apply occurs_at_match_here. split; [simpl; lia|done].
    + intros H. apply IH in H as (i & Hi & Hbefore).
      exists (S i). split.
      * apply occurs_at_match_here in Hi as [? ?].
        apply occurs_at_match_here. simpl. split; [lia|done].
      * intros [|j] m' Hj Hocc.
        -- apply occurs_at_match_here in Hocc as [_ Hocc]. simpl in Hocc.
           congruence.
        -- apply (Hbefore j m'); [lia|].
           apply occurs_at_match_here in Hocc as [? ?].
           apply occurs_at_match_here. simpl in *. split; [lia|done].
Qed.





Lemma pid_rename_search_pages (pages : list page) :
  PidRename.search_pages pages = scan_pages Re.pid_digits id pages.
Proof.
  induction pages as [|[text|] rest IH]; simpl; [done| |done].
  by destruct (Re.re_search Re.pid_digits text).
Qed.



Lemma read_pdf_pages_of (w : world) (p : string) :
  match pages_of w p with
  | Some pages => Os.read_pdf p w = (Ret pages, w)
  | None => ∃ msg, Os.read_pdf p w = (Exc msg, w)
  end.
Proof.
  unfold pages_of, Os.read_pdf.
  destruct (files w !! p) as [[[pages|]|]|]; eauto.
Qed.

End Extractors.

Section ExtractorResults.






End ExtractorResults.






(** ** The language classifier *)

Section Language.


Lemma gather_text_result (pages : list page) (acc : string) (w : world) :
  (∃ text, WordToPdf.gather_text pages acc w = (Ret text, w))
  ∨ (∃ msg, WordToPdf.gather_text pages acc w = (Exc msg, w)).
Proof.
  revert acc. induction pages as [|[t|] rest IH]; intros acc; simpl.
  - left. by eexists.
  - destruct (PyStr.truthy t); [|done].
    destruct (1000 <? String.length (acc +:+ t)); [|done].
    left. by eexists.
  - right. by eexists.
Qed.

Lemma detect_language_tag (E : env) (pdf_path : string) (w : world) :
  ∃ tag, WordToPdf.detect_language E pdf_path w = (Ret tag, w)
    ∧ (tag = "EN" ∨ tag = "NON").
Proof.
  unfold WordToPdf.detect_language, WordToPdf.detect_language_within,
    try_except, mbind, M_bind, bind.
  pose proof (read_pdf_pages_of w pdf_path) as Hr.
  destruct (pages_of w pdf_path) as [pages|].
  - rewrite Hr.
    destruct (gather_text_result (take (min (length pages) 3) pages) "" w)
      as [[text ->]|[msg ->]]; [|by eauto].
    destruct (100 <? String.length text); [|by eauto].
    destruct (detect E text) as [lang|]; [|by eauto].
    destruct (String.eqb lang "en"); eauto.
  - destruct Hr as [msg ->]. eauto.
Qed.


End Language.






(** ** The country mapping *)

Section Mapping.

Lemma all_chars_filter_chars (f : ascii → bool) (s : string) :
  PyStr.all_chars f (PyStr.filter_chars f s) = true.
Proof.
  induction s as [|c r IH]; simpl; [done|].
  destruct (f c) eqn:Hc; [|done]. simpl. by rewrite Hc.
Qed.

(** What holds of every key: it starts with [P] and six digits, and has
    no character other than [P] and digits. *)
Lemma load_project_country_mapping_keys (rows : list (WordToPdf.cell * WordToPdf.cell))
    (k : string) :
  k ∈ dom (WordToPdf.load_project_country_mapping rows) →
  is_Some (Re.re_match Re.pid_digits k)
  ∧ PyStr.all_chars (fun c => Ascii.eqb c "P" || PyStr.is_digit c) k = true.
Proof.
  unfold WordToPdf.load_project_country_mapping.
  assert (∀ m : gmap string string,
            (∀ k, k ∈ dom m →
                  is_Some (Re.re_match Re.pid_digits k)
                  ∧ PyStr.all_chars
                      (fun c => Ascii.eqb c "P" || PyStr.is_digit c) k = true) →
            ∀ k, k ∈ dom (fold_left WordToPdf.add_row rows m) →
                 is_Some (Re.re_match Re.pid_digits k)
                 ∧ PyStr.all_chars
                     (fun c => Ascii.eqb c "P" || PyStr.is_digit c) k = true)
    as Hgen.
  { induction rows as [|row rows IH]; intros m Hm; [done|]. simpl.
    apply IH. intros k'. unfold WordToPdf.add_row.
    destruct (negb _ || negb _); [by apply Hm|].
    match goal with
    | |- context [Re.re_match Re.pid_digits (Re.strip_non_pid_chars ?x)] =>
        pose proof (all_chars_filter_chars
                      (fun c => Ascii.eqb c "P" || PyStr.is_digit c) x) as Hall;
        fold (Re.strip_non_pid_chars x) in Hall;
        destruct (Re.re_match Re.pid_digits (Re.strip_non_pid_chars x))
          eqn:Hmatch; [|by apply Hm]
    end.
    rewrite dom_insert_L, elem_of_union, elem_of_singleton.
    intros [->|Hk']; [|by apply Hm]. split; [by rewrite Hmatch|exact Hall]. }
  apply Hgen. intros k'. rewrite dom_empty_L. set_solver.
Qed.

End Mapping.

(** C5 (the code departs from the claim).  A row whose identifier has seven
    digits gives a key that is not [P] and six digits, because [re.match]
    checks the start of the identifier only; and a row whose country cell
    is empty, which pandas hands over as NaN, gives an entry for the
    country [nan], because [pd.isna] is asked after [str]. *)
Theorem C5_keys_beyond_six_digits :
  WordToPdf.load_project_country_mapping
    [(WordToPdf.Text "P1234567", WordToPdf.Text "Kenya")]
  = {[ "P1234567" := "Kenya" ]}
  ∧ ¬ is_project_id "P1234567"
  ∧ WordToPdf.load_project_country_mapping
      [(WordToPdf.Text "P123456", WordToPdf.NaN)]
    = {[ "P123456" := "nan" ]}.
Proof.
  split_and!; [by vm_compute| |by vm_compute].
  intros H. apply Forall2_length in H. discriminate H.
Qed.

(** ** The counts of a run *)

Section Counts.

Lemma main_counts_from (results : list (string * bool * option string))
    (successful failed : nat) :
  fold_left Docx2pdfConverter.count_result results (successful, failed)
  = (successful + count_flag true results, failed + count_flag false results).
Proof.
  revert successful failed.
  induction results as [|[[f [|]] e] rest IH]; intros a b; simpl.
  - unfold count_flag. simpl. f_equal; lia.
  - rewrite IH. unfold count_flag. simpl. f_equal; lia.
  - rewrite IH. unfold count_flag. simpl. f_equal; lia.
Qed.

Lemma foldM_process_batch_unit (fuel : nat) (E : env)
    (bs : list (list string)) (output_dir input_dir : string)
    (rename_with_pid : bool) (country_mapping : gmap string string)
    (w w' : world) (r : unit) :
  foldM
    (fun (_ : unit) batch =>
       WordToPdf.process_batch fuel E batch output_dir input_dir
         rename_with_pid country_mapping;;
       mret tt)
    tt bs w = (Ret r, w') →
  r = tt.
Proof. by destruct r. Qed.

(** Whatever the batches do, [convert_folder_to_pdf] prints zero for both
    counts. *)
Lemma convert_word_files_counts (fuel : nat) (E : env)
    (word_files : list string) (batch_size : nat)
    (output_dir input_dir : string) (rename_with_pid : bool)
    (country_mapping : gmap string string) (w w' : world)
    (counts : nat * nat) :
  WordToPdf.convert_word_files fuel E word_files batch_size output_dir
    input_dir rename_with_pid country_mapping w = (Ret (Some counts), w') →
  counts = (0, 0).
Proof.
  unfold WordToPdf.convert_word_files.
  destruct word_files as [|f fs]; [done|].
  unfold mbind, M_bind, bind.
  destruct (foldM _ tt _ w) as [[[]| |] w'']; [|done..].
  by intros [= <- _].
Qed.

End Counts.

(** C9 (the code departs from the claim).  For two Word documents, one of
    which Word converts and one on which every attempt fails, the results
    of the batch carry one true and one false success flag, but
    [convert_folder_to_pdf] of [word_to_pdf.py] prints 0 succeeded and 0
    failed: [process_batch] drops the results and the counters are never
    changed.  [main] of [docx2pdf_converter.py] counts the flags. *)
Theorem C9_summary_counts_stay_zero :
  let run_results :=
    WordToPdf.batch_results 5 project_env ["in/good.docx"; "in/bad.docx"]
      "out" "in" false ∅ empty_out in
  let printed :=
    WordToPdf.convert_word_files 5 project_env
      ["in/good.docx"; "in/bad.docx"] 10 "out" "in" false ∅ empty_out in
  (WordToPdf.success <$>
     match run_results.1 with Ret rs => rs | _ => [] end) = [true; false]
  ∧ printed.1 = Ret (Some (0, 0))
  ∧ ∀ results, Docx2pdfConverter.main_counts results
               = (count_flag true results, count_flag false results).
Proof.
  split_and!; [by vm_compute|by vm_compute|].
  intros results. unfold Docx2pdfConverter.main_counts.
  by rewrite main_counts_from.
Qed.

(** ** The loop of the reconciliation pass *)

Section StuckLoop.

Lemma dedup_loop_stuck (fuel counter : nat) :
  WordToPdf.dedup_loop fuel stuck_world ["P123456"; "01.pdf"] "Kenya"
    "out/P123456_01.pdf" "out" counter "P123456_Kenya_01.pdf"
    "out/P123456_Kenya_01.pdf" = None.
Proof.
  revert counter. induction fuel as [|fuel IH]; intros counter; [done|].
  cbn [WordToPdf.dedup_loop].
  assert (Os.path_exists stuck_world "out/P123456_Kenya_01.pdf"
          && negb (String.eqb "out/P123456_Kenya_01.pdf" "out/P123456_01.pdf")
          = true) as -> by (by vm_compute).
  assert (PyStr.join_with "_"
            (WordToPdf.new_parts_in_loop ["P123456"; "01.pdf"] "Kenya" counter)
          = "P123456_Kenya_01.pdf") as -> by reflexivity.
  apply IH.
Qed.

End StuckLoop.

(** C10 (the code departs from the claim).  With [P123456_01.pdf] and
    [P123456_Kenya_01.pdf] both present, the loop of the pass for
    [P123456_01.pdf] takes the branch that keeps a counter already there:
    every iteration builds the same candidate [P123456_Kenya_01.pdf], which
    exists, so the loop does not end whatever the fuel, and neither does
    the pass. *)
Theorem C10_dedup_loop_repeats_candidate (fuel : nat) :
  (∀ counter,
     PyStr.join_with "_"
       (WordToPdf.new_parts_in_loop ["P123456"; "01.pdf"] "Kenya" counter)
     = "P123456_Kenya_01.pdf")
  ∧ WordToPdf.rename_plan kenya "P123456_01.pdf"
    = Some ("P123456", "Kenya", ["P123456"; "01.pdf"])
  ∧ WordToPdf.reconcile_one fuel kenya 0 "out/P123456_01.pdf" stuck_world
    = (OutOfFuel, stuck_world)
  ∧ WordToPdf.apply_country_mapping_to_existing_files fuel plain_env "out"
      kenya stuck_world
    = (OutOfFuel, stuck_world).
Proof.
  assert (WordToPdf.reconcile_one fuel kenya 0 "out/P123456_01.pdf" stuck_world
          = (OutOfFuel, stuck_world)) as Hone.
  { unfold WordToPdf.reconcile_one.
    assert (WordToPdf.rename_plan kenya (OsPath.basename "out/P123456_01.pdf")
            = Some ("P123456", "Kenya", ["P123456"; "01.pdf"])) as ->
      by (by vm_compute).
    unfold mbind, M_bind, bind, get_world.
    change (OsPath.dirname "out/P123456_01.pdf") with "out".
    change (WordToPdf.first_new_filename "P123456" "Kenya"
              ["P123456"; "01.pdf"]) with "P123456_Kenya_01.pdf".
    change (OsPath.join "out" "P123456_Kenya_01.pdf")
      with "out/P123456_Kenya_01.pdf".
    by rewrite dedup_loop_stuck. }
  split_and!; [done|by vm_compute|done|].
  unfold WordToPdf.apply_country_mapping_to_existing_files.
  rewrite bool_decide_eq_false_2 by (by vm_compute).
  unfold mbind, M_bind, bind, get_world.
  assert (filter (fun p => WordToPdf.is_pdf_name (OsPath.basename p))
            (walk_files plain_env stuck_world "out")
          = ["out/P123456_Kenya_01.pdf"; "out/P123456_01.pdf"]
          ∨ filter (fun p => WordToPdf.is_pdf_name (OsPath.basename p))
              (walk_files plain_env stuck_world "out")
            = ["out/P123456_01.pdf"; "out/P123456_Kenya_01.pdf"]) as [->| ->].
  { vm_compute. auto. }
  - simpl. unfold mbind, M_bind, bind.
    assert (WordToPdf.reconcile_one fuel kenya 0 "out/P123456_Kenya_01.pdf"
              stuck_world = (Ret 0, stuck_world)) as -> by (by vm_compute).
    by rewrite Hone.
  - simpl. unfold mbind, M_bind, bind. by rewrite Hone.
Qed.

(** ** What the primitives do to the world *)

Section Effects.

Lemma save_effect (dst : string) (c : content) (w : world) :
  (Os.save dst c w
   = (Ret tt,
      Os.put dst c (Os.log (Event OpSave None dst (Os.is_file w dst)) w))
   ∧ Os.is_dir w dst = false)
  ∨ ∃ msg, Os.save dst c w = (Exc msg, w).
Proof.
  unfold Os.save. destruct (Os.is_dir w dst) eqn:Hd; simpl; [by eauto|].
  destruct (negb (Os.dir_exists w (OsPath.dirname dst))); eauto.
Qed.

Lemma rename_effect (src dst : string) (w : world) :
  (∃ c, files w !! src = Some c
     ∧ Os.is_dir w dst = false
     ∧ (src ∉ locked w)
     ∧ Os.rename src dst w
       = (Ret tt,
          Os.put dst c
            (Os.remove src
               (Os.log (Event OpRename (Some src) dst (Os.is_file w dst)) w))))
  ∨ ∃ msg, Os.rename src dst w = (Exc msg, w).
Proof.
  unfold Os.rename. destruct (files w !! src) as [c|]; [|by eauto].
  case_bool_decide; [by eauto|].
  destruct (Os.is_dir w dst) eqn:Hd; [by eauto|].
  destruct (negb (Os.dir_exists w (OsPath.dirname dst))); [by eauto|].
  left. exists c. done.
Qed.


Lemma is_dir_exists (w : world) (p : string) :
  Os.path_exists w p = false → Os.is_dir w p = false ∧ Os.is_file w p = false.
Proof. unfold Os.path_exists. by intros [? ?]%orb_false_iff. Qed.

Lemma safe_log_put (w : world) (e : event) (c : content) :
  safe w → clobbers e = false → safe (Os.put (ev_dst e) c (Os.log e w)).
Proof.
  unfold safe. simpl. intros Hw He. apply Forall_app. split; [done|].
  by constructor.
Qed.

Lemma safe_save (dst : string) (c : content) (w : world) :
  safe w → Os.path_exists w dst = false → safe (Os.save dst c w).2.
Proof.
  intros Hw Hfree. apply is_dir_exists in Hfree as [_ Hf].
  destruct (save_effect dst c w) as [[-> _]|[msg ->]]; [|done]. simpl.
  apply (safe_log_put w (Event OpSave None dst (Os.is_file w dst)) c Hw).
  unfold clobbers. simpl. by rewrite Hf.
Qed.









Lemma word_attempts_effect (E : env) (input_file output_file : string)
    (retries attempt n : nat) (w : world) :
  (∃ doc k, attempt ≤ k < attempt + n
     ∧ word_export E input_file k = inl doc
     ∧ Os.is_dir w output_file = false
     ∧ WordToPdf.word_attempts E input_file output_file retries attempt n w
       = (Ret output_file,
          Os.put output_file (Pdf doc)
            (Os.log
               (Event OpSave None output_file (Os.is_file w output_file)) w)))
  ∨ ∃ msg, WordToPdf.word_attempts E input_file output_file retries attempt
             n w = (Exc msg, w).
Proof.
  revert attempt. induction n as [|n IH]; intros attempt; simpl.
  - right. by eexists.
  - unfold try_except.
    assert ((∃ msg, WordToPdf.word_attempts E input_file output_file retries
                      (S attempt) n w = (Exc msg, w))
            ∨ ∃ doc k, attempt ≤ k < attempt + S n
                ∧ word_export E input_file k = inl doc
                ∧ Os.is_dir w output_file = false
                ∧ WordToPdf.word_attempts E input_file output_file retries
                    (S attempt) n w
                  = (Ret output_file,
                     Os.put output_file (Pdf doc)
                       (Os.log
                          (Event OpSave None output_file
                             (Os.is_file w output_file)) w))) as Hnext.
    { destruct (IH (S attempt)) as [(doc & k & Hk & Hdoc & Hd & Hrun)|Hfail].
      - right. exists doc, k. split_and!; try lia; done.
      - by left. }
    destruct (word_export E input_file attempt) as [doc|e] eqn:Hexp.
    + unfold mbind, M_bind, bind.
      destruct (save_effect output_file (Pdf doc) w) as [[-> Hd]|[msg ->]].
      * left. exists doc, attempt. split_and!; try lia; done.
      * destruct (attempt <? retries); [|right; by eexists].
        destruct Hnext as [Hfail|Hok]; [by right|by left].
    + unfold raise.
      destruct (attempt <? retries); [|right; by eexists].
      destruct Hnext as [Hfail|Hok]; [by right|by left].
Qed.

Lemma resolve_target_dir_effect (output_dir rel_path : string) (b : bool)
    (w : world) :
  (∃ target_dir w',
     WordToPdf.resolve_target_dir output_dir rel_path b w = (Ret target_dir, w')
     ∧ same_files w w'
     ∧ (∀ p, Os.path_exists w p = true → Os.path_exists w' p = true))
  ∨ ∃ msg, WordToPdf.resolve_target_dir output_dir rel_path b w = (Exc msg, w).
Proof.
  unfold WordToPdf.resolve_target_dir.
  destruct ((PyStr.truthy rel_path || b) && negb (String.eqb rel_path ".")).
  - unfold mbind, M_bind, bind, Os.makedirs.
    destruct (Os.is_file w (OsPath.join output_dir rel_path)); [by eauto|].
    left. eexists _, _. split; [done|]. split; [done|].
    intros p. rewrite !path_exists_occupied. unfold occupied. simpl.
    rewrite !elem_of_union. tauto.
  - left. exists output_dir, w. split; [done|]. split; done.
Qed.

End Effects.

(** ** No write replaces a file *)

Section Safety.

Lemma try_except_world {A} (m : M A) (h : string → A) (w : world) :
  (try_except m (fun e => mret (h e)) w).2 = (m w).2.
Proof. unfold try_except. by destruct (m w) as [[?|?|] ?]. Qed.

Lemma bind_mret_world {A B} (m : M A) (f : A → B) (w : world) :
  ((a ← m; mret (f a)) w).2 = (m w).2.
Proof. unfold mbind, M_bind, bind. by destruct (m w) as [[?|?|] ?]. Qed.


Lemma detect_language_pure (E : env) (pdf_path : string) (w : world) :
  ∃ tag, WordToPdf.detect_language E pdf_path w = (Ret tag, w).
Proof. destruct (detect_language_tag E pdf_path w) as (tag & ? & _). eauto. Qed.









Lemma dedup_loop_stops (fuel : nat) (w : world) (parts : list string)
    (country pdf_file dirname : string) (counter : nat)
    (new_filename new_path name path : string) :
  WordToPdf.dedup_loop fuel w parts country pdf_file dirname counter
    new_filename new_path = Some (name, path) →
  Os.path_exists w path = false ∨ path = pdf_file.
Proof.
  revert counter new_filename new_path.
  induction fuel as [|fuel IH]; intros counter new_filename new_path; [done|].
  cbn [WordToPdf.dedup_loop].
  destruct (Os.path_exists w new_path) eqn:Hex; simpl.
  - destruct (String.eqb new_path pdf_file) eqn:Heq; simpl.
    + intros [= <- <-]. right. by apply String.eqb_eq.
    + apply IH.
  - intros [= <- <-]. by left.
Qed.




End Safety.

(** ** The probes find a name *)

Section Returns.

Lemma size_union_le (X Y : gset string) : size (X ∪ Y) ≤ size X + size Y.
Proof.
  rewrite size_union_alt.
  assert (size (Y ∖ X) ≤ size Y); [|lia].
  apply subseteq_size. by intros x [? _]%elem_of_difference.
Qed.

Lemma size_ancestors (n : nat) (d : string) : size (Os.ancestors n d) ≤ n.
Proof.
  revert d. induction n as [|n IH]; intros d; cbn [Os.ancestors].
  - assert (size (∅ : gset string) = 0) as -> by apply size_empty. lia.
  - destruct (negb (PyStr.truthy d) || OsPath.all_sep d).
    + assert (size (∅ : gset string) = 0) as -> by apply size_empty. lia.
    + pose proof (size_union_le {[d]} (Os.ancestors n (OsPath.dirname d))) as H.
      rewrite size_singleton in H. specialize (IH (OsPath.dirname d)). lia.
Qed.





Lemma weight_resolve_target_dir (output_dir rel_path : string) (b : bool)
    (w w' : world) (target_dir : string) :
  WordToPdf.resolve_target_dir output_dir rel_path b w = (Ret target_dir, w') →
  weight w' ≤ weight w + String.length (OsPath.join output_dir rel_path).
Proof.
  unfold WordToPdf.resolve_target_dir.
  destruct ((PyStr.truthy rel_path || b) && negb (String.eqb rel_path ".")).
  - unfold mbind, M_bind, bind, Os.makedirs.
    destruct (Os.is_file w _); [done|]. intros [= _ <-]. unfold weight. simpl.
    pose proof (size_union_le (dirs w)
                  (Os.ancestors
                     (String.length (OsPath.join output_dir rel_path))
                     (OsPath.join output_dir rel_path))) as H1.
    pose proof (size_ancestors
                  (String.length (OsPath.join output_dir rel_path))
                  (OsPath.join output_dir rel_path)) as H2.
    lia.
  - intros [= _ <-]. lia.
Qed.

Lemma probe_output_path_returns (fuel : nat) (file_path target_dir : string)
    (w : world) :
  weight w < fuel →
  ∃ p, WordToPdf.probe_output_path fuel file_path target_dir w = (Ret p, w)
    ∧ Os.path_exists w p = false.
Proof.
  intros Hfuel.
  unfold WordToPdf.probe_output_path, mbind, M_bind, bind, Os.exists_.
  destruct (Os.path_exists w _) eqn:Hex; [|by eauto].
  destruct (get_unique_filename_spec w
              (OsPath.join target_dir (OsPath.stem file_path +:+ ".pdf")) fuel
              Hfuel) as (r & Hr & Hfree & _).
  eauto.
Qed.








End Returns.




(** ** What remains of a file without identifier *)

Section Kept.


Lemma rename_keeps_content (src dst : string) (c : content) (w : world) :
  files w !! src = Some c →
  files (Os.rename src dst w).2 !! src = Some c
  ∨ files (Os.rename src dst w).2 !! dst = Some c.
Proof.
  intros Hsrc.
  destruct (rename_effect src dst w) as [(c' & Hc' & _ & _ & ->)|[msg ->]].
  - right. simpl. rewrite lookup_insert_eq. congruence.
  - by left.
Qed.









End Kept.




(** ** Paths of a directory *)

Section Directories.

Lemma has_sep_app (a b : string) :
  OsPath.has_sep (a +:+ b) = OsPath.has_sep a || OsPath.has_sep b.
Proof.
  induction a as [|c a IH]; [done|]. rewrite app_cons. simpl.
  by rewrite IH, orb_assoc.
Qed.

Lemma has_sep_basename (p : string) : OsPath.has_sep (OsPath.basename p) = false.
Proof.
  induction p as [|c r IH]; [done|]. simpl.
  destruct (OsPath.has_sep r) eqn:Hr; [done|].
  destruct (Ascii.eqb c OsPath.sep) eqn:Hc; [done|]. simpl. by rewrite Hc, Hr.
Qed.

Lemma ends_with_sep_has_sep (x : string) :
  OsPath.ends_with_sep x = true → OsPath.has_sep x = true.
Proof.
  induction x as [|c [|d r] IH]; simpl in *; [done| |].
  - intros ->. done.
  - intros H. rewrite (IH H). by rewrite orb_true_r.
Qed.

Lemma startswith_sep_no_sep (f : string) :
  OsPath.has_sep f = false → PyStr.startswith "/" f = false.
Proof.
  destruct f as [|c r]; [done|]. cbn [OsPath.has_sep PyStr.startswith].
  intros [Hc _]%orb_false_iff. rewrite Ascii.eqb_sym.
  unfold OsPath.sep in Hc. by rewrite Hc.
Qed.

Lemma basename_app_no_sep (x f : string) :
  OsPath.has_sep f = false →
  x = "" ∨ OsPath.ends_with_sep x = true →
  OsPath.basename (x +:+ f) = f.
Proof.
  intros Hf. induction x as [|c r IH]; intros Hx.
  - clear Hx. induction f as [|d f IHf]; [done|]. simpl in *.
    apply orb_false_iff in Hf as [Hd Hf]. by rewrite Hf, Hd.
  - destruct Hx as [Hx|Hx]; [done|]. rewrite app_cons. simpl.
    rewrite has_sep_app, Hf, orb_false_r.
    destruct r as [|d r].
    + simpl in *. by rewrite Hx.
    + assert (OsPath.ends_with_sep (String d r) = true) as Hr by exact Hx.
      rewrite (ends_with_sep_has_sep _ Hr). apply IH. by right.
Qed.

Lemma head_of_app_no_sep (x f : string) :
  OsPath.has_sep f = false →
  x = "" ∨ OsPath.ends_with_sep x = true →
  OsPath.head_of (x +:+ f) = x.
Proof.
  intros Hf. induction x as [|c r IH]; intros Hx.
  - clear Hx. induction f as [|d f IHf]; [done|]. simpl in *.
    apply orb_false_iff in Hf as [Hd Hf]. by rewrite Hf, Hd.
  - destruct Hx as [Hx|Hx]; [done|]. rewrite app_cons. simpl.
    rewrite has_sep_app, Hf, orb_false_r.
    destruct r as [|d r].
    + simpl in *. by rewrite Hx.
    + assert (OsPath.ends_with_sep (String d r) = true) as Hr by exact Hx.
      rewrite (ends_with_sep_has_sep _ Hr). f_equal. apply IH. by right.
Qed.

Lemma ends_with_sep_app_sep (x : string) :
  OsPath.ends_with_sep (x +:+ "/") = true.
Proof.
  induction x as [|c r IH]; [done|]. rewrite app_cons.
  destruct r as [|d r]; [done|]. exact IH.
Qed.








Lemma join_no_sep (d f : string) :
  OsPath.has_sep f = false →
  OsPath.join d f
  = if negb (PyStr.truthy d) || OsPath.ends_with_sep d
    then d +:+ f else (d +:+ "/") +:+ f.
Proof.
  intros Hf. unfold OsPath.join. rewrite (startswith_sep_no_sep f Hf).
  destruct (negb (PyStr.truthy d) || OsPath.ends_with_sep d); [done|].
  by rewrite app_assoc'.
Qed.

Lemma basename_join (d f : string) :
  OsPath.has_sep f = false → OsPath.basename (OsPath.join d f) = f.
Proof.
  intros Hf. rewrite (join_no_sep d f Hf).
  destruct (negb (PyStr.truthy d) || OsPath.ends_with_sep d) eqn:Hd.
  - apply basename_app_no_sep; [done|].
    apply orb_true_iff in Hd as [Hd|Hd]; [left|by right].
    by destruct d.
  - apply basename_app_no_sep; [done|]. right. apply ends_with_sep_app_sep.
Qed.


End Directories.

(** ** Names with a country *)

Section Tagged.









Lemma startswith_app (sub post : string) :
  PyStr.startswith sub (sub +:+ post) = true.
Proof.
  induction sub as [|c r IH]; [done|]. rewrite app_cons. simpl.
  by rewrite Ascii.eqb_refl.
Qed.

Lemma contains_unfold (sub s : string) :
  PyStr.contains sub s
  = PyStr.startswith sub s
    || match s with "" => false | String _ r => PyStr.contains sub r end.
Proof. by destruct s. Qed.

Lemma contains_app (pre sub post : string) :
  PyStr.contains sub (pre +:+ sub +:+ post) = true.
Proof.
  induction pre as [|c r IH].
  - change ("" +:+ sub +:+ post) with (sub +:+ post).
    by rewrite contains_unfold, startswith_app.
  - rewrite app_cons, contains_unfold, IH. by rewrite orb_true_r.
Qed.

Lemma re_search_unfold (pat : Re.pattern) (s : string) :
  Re.re_search pat s
  = match Re.match_here pat s with
    | Some m => Some m
    | None =>
        match s with "" => None | String _ r => Re.re_search pat r end
    end.
Proof. by destruct s. Qed.

Lemma re_search_prefix (pat : Re.pattern) (m x : string) :
  matches pat m → Re.re_search pat (m +:+ x) = Some m.
Proof.
  intros Hm. rewrite re_search_unfold.
  assert (Re.match_here pat (m +:+ x) = Some m) as ->; [|done].
  apply match_here_matches. eauto.
Qed.







End Tagged.

(** ** The reconciliation pass *)

Section Reconciliation.








End Reconciliation.




(** ** A rename that the operating system refuses *)

(** C8 (the code departs from the claim).  Word converts [in/report.docx],
    the identifier [P654321] is read from the PDF, and the operating system
    refuses the first rename: [process_file] returns a true success flag and
    leaves the file under its name [out/report.pdf], but reports no
    identifier.  When it is the final rename that is refused, the
    identifier is reported. *)
Theorem C8_first_rename_failure_drops_identifier :
  let first_refused :=
    WordToPdf.process_file 5 project_env "in/report.docx" "out" "in" true ∅
      (empty_out_locking "out/report.pdf") in
  let final_refused :=
    WordToPdf.process_file 5 project_env "in/report.docx" "out" "in" true ∅
      (empty_out_locking "out/P654321.pdf") in
  first_refused.1 = Ret (WordToPdf.Result "in/report.docx" true None None)
  ∧ (dom (files first_refused.2) = {[ "out/report.pdf" ]}
     ∧ (WordToPdf.extract_project_id "out/report.pdf" first_refused.2).1
       = Ret (Some "P654321"))
  ∧ final_refused.1
    = Ret (WordToPdf.Result "in/report.docx" true None (Some "P654321"))
  ∧ dom (files final_refused.2) = {[ "out/P654321.pdf" ]}.
Proof. split_and!; by vm_compute. Qed.

(** * Further properties of the scripts *)

(** Closes a goal that holds by evaluation. *)
Ltac evaluated := vm_compute; first [reflexivity | done].

(** ** Sizing the pool and the batches *)

Section Sizing.

Lemma get_optimal_workers_cases (c : option nat) :
  2 ≤ WordToPdf.get_optimal_workers c ≤ 4.
Proof.
  unfold WordToPdf.get_optimal_workers. lia.
Qed.

Lemma Qltb_inject (t : N) (k : Z) :
  WordToPdf.Qltb
    (QArith_base.Qdiv (QArith_base.inject_Z (Z.of_N t))
       (QArith_base.inject_Z (1024 ^ 3))) (QArith_base.inject_Z k)
  = (Z.of_N t <? k * 1024 ^ 3)%Z.
Proof.
  unfold WordToPdf.Qltb.
  destruct (QArith_base.Qle_bool _ _) eqn:H.
  - apply QArith_base.Qle_bool_iff in H.
    unfold QArith_base.Qle in H. simpl in H.
    symmetry. apply Z.ltb_ge. lia.
  - simpl. symmetry. apply Z.ltb_lt.
    destruct (Z.lt_ge_cases (Z.of_N t) (k * 1024 ^ 3)) as [?|Hge]; [done|].
    exfalso.
    assert (QArith_base.Qle_bool (QArith_base.inject_Z k)
       (QArith_base.Qdiv (QArith_base.inject_Z (Z.of_N t))
          (QArith_base.inject_Z (1024 ^ 3))) = true); [|congruence].
    apply QArith_base.Qle_bool_iff. unfold QArith_base.Qle. simpl. lia.
Qed.

End Sizing.

(** X1.  [get_optimal_workers] returns between 2 and 4 workers whatever
    [os.cpu_count()] says: 2 when the count is unknown, zero or below 6, 3
    for 6 or 7 cores, and 4 from 8 cores on. *)
Theorem X1_workers_by_cpu_count (os_cpu_count : option nat) :
  2 ≤ WordToPdf.get_optimal_workers os_cpu_count ≤ 4
  ∧ WordToPdf.get_optimal_workers None = 2
  ∧ ∀ n, WordToPdf.get_optimal_workers (Some n)
         = if n <? 6 then 2 else if n <? 8 then 3 else 4.
Proof.
  split; [apply get_optimal_workers_cases|]. split; [done|].
  intros n. unfold WordToPdf.get_optimal_workers.
  destruct n as [|n]; [done|].
  destruct (S n <? 6) eqn:H6.
  - apply Nat.ltb_lt in H6.
    assert (S n / 2 < 3) by (apply Nat.Div0.div_lt_upper_bound; lia). lia.
  - apply Nat.ltb_ge in H6. destruct (S n <? 8) eqn:H8.
    + apply Nat.ltb_lt in H8.
      assert (S n / 2 = 3); [|lia].
      symmetry. apply (Nat.div_unique _ _ _ (S n - 6)); lia.
    + apply Nat.ltb_ge in H8.
      assert (4 ≤ S n / 2) by (apply Nat.div_le_lower_bound; lia). lia.
Qed.

(** X2.  [get_optimal_batch_size] returns a batch size between 10 and 100,
    so never zero: 20 when [psutil] is missing, else 10 below 4 GiB of
    memory, 20 below 8 GiB, 50 below 16 GiB and 100 from there on; more
    memory never gives a smaller batch. *)
Theorem X2_batch_size_by_memory (psutil_total : option N) :
  10 ≤ WordToPdf.get_optimal_batch_size psutil_total ≤ 100
  ∧ WordToPdf.get_optimal_batch_size None = 20
  ∧ (∀ total,
       WordToPdf.get_optimal_batch_size (Some total)
       = if (total <? 4 * 1024 ^ 3)%N then 10
         else if (total <? 8 * 1024 ^ 3)%N then 20
         else if (total <? 16 * 1024 ^ 3)%N then 50
         else 100)
  ∧ ∀ total total',
      (total ≤ total')%N →
      WordToPdf.get_optimal_batch_size (Some total)
      ≤ WordToPdf.get_optimal_batch_size (Some total').
Proof.
  assert (∀ total,
       WordToPdf.get_optimal_batch_size (Some total)
       = if (total <? 4 * 1024 ^ 3)%N then 10
         else if (total <? 8 * 1024 ^ 3)%N then 20
         else if (total <? 16 * 1024 ^ 3)%N then 50
         else 100) as Hsteps.
  { intros total. unfold WordToPdf.get_optimal_batch_size.
    rewrite !Qltb_inject.
    assert (∀ k : N, (Z.of_N total <? Z.of_N k * 1024 ^ 3)%Z
                     = (total <? k * 1024 ^ 3)%N) as Hk.
    { intros k. destruct (total <? k * 1024 ^ 3)%N eqn:H.
      - apply N.ltb_lt in H. apply Z.ltb_lt. lia.
      - apply N.ltb_ge in H. apply Z.ltb_ge. lia. }
    by rewrite <- (Hk 4%N), <- (Hk 8%N), <- (Hk 16%N). }
  split_and!; [| |done|exact Hsteps|].
  - destruct psutil_total as [total|]; [|simpl; lia]. rewrite Hsteps.
    repeat case_match; lia.
  - destruct psutil_total as [total|]; [|simpl; lia]. rewrite Hsteps.
    repeat case_match; lia.
  - intros total total' Hle. rewrite !Hsteps.
    repeat case_match; try lia;
      repeat match goal with
        | H : (_ <? _)%N = true |- _ => apply N.ltb_lt in H
        | H : (_ <? _)%N = false |- _ => apply N.ltb_ge in H
        end; lia.
Qed.

Lemma X2_batch_size_by_memory_witness :
  WordToPdf.get_optimal_batch_size (Some (2 * 1024 ^ 3)%N)
  ≤ WordToPdf.get_optimal_batch_size (Some (12 * 1024 ^ 3)%N).
Proof.
  destruct (X2_batch_size_by_memory None) as (_ & _ & _ & H).
  apply H. evaluated.
Defined.

Section Batches.

Context {A : Type}.

Lemma batches_spec (batch_size n : nat) (l : list A) :
  0 < batch_size → length l ≤ n →
  concat (WordToPdf.batches n batch_size l) = l
  ∧ Forall (fun batch => 0 < length batch ≤ batch_size)
      (WordToPdf.batches n batch_size l)
  ∧ length (WordToPdf.batches n batch_size l)
    = (length l + batch_size - 1) / batch_size.
Proof.
  intros Hb. revert l. induction n as [|n IH]; intros l Hn.
  - destruct l; [|simpl in Hn; lia]. simpl. split_and!; [done|constructor|].
    symmetry. apply Nat.div_small. lia.
  - destruct l as [|a l].
    { simpl. split_and!; [done|constructor|]. symmetry. apply Nat.div_small.
      lia. }
    destruct batch_size as [|b]; [lia|].
    cbn [WordToPdf.batches]. rewrite firstn_cons, skipn_cons.
    destruct (IH (drop b l)) as (Hc & Hf & Hl).
    { rewrite length_drop. simpl in Hn. lia. }
    cbn [concat length]. split_and!.
    + rewrite Hc. cbn [app]. by rewrite take_drop.
    + constructor; [|done]. cbn [length]. rewrite length_take. lia.
    + rewrite Hl, length_drop.
      destruct (decide (length l < b)) as [Hlt|Hge].
      * replace (length l - b) with 0 by lia.
        replace ((0 + S b - 1) / S b) with 0
          by (symmetry; apply Nat.div_small; lia).
        apply (Nat.div_unique _ _ _ (length l)); lia.
      * replace (S (length l) + S b - 1)
          with ((length l - b + S b - 1) + 1 * S b) by lia.
        rewrite Nat.div_add by lia. lia.
Qed.

End Batches.

(** X3.  For a positive batch size, the slices [word_files[i:i+batch_size]]
    of the batch loop, taken in order, make up the list again; every slice
    has between 1 and [batch_size] files, and there are
    [(len + batch_size - 1) // batch_size] of them, the total that the loop
    prints. *)
Theorem X3_batches_split_the_list {A} (batch_size : nat) (l : list A) :
  0 < batch_size →
  concat (WordToPdf.batches (length l) batch_size l) = l
  ∧ Forall (fun batch => 0 < length batch ≤ batch_size)
      (WordToPdf.batches (length l) batch_size l)
  ∧ length (WordToPdf.batches (length l) batch_size l)
    = (length l + batch_size - 1) / batch_size.
Proof. intros Hb. by apply batches_spec. Qed.

Lemma X3_batches_split_the_list_witness :
  concat (WordToPdf.batches 5 2 ["a"; "b"; "c"; "d"; "e"])
  = ["a"; "b"; "c"; "d"; "e"]
  ∧ length (WordToPdf.batches 5 2 ["a"; "b"; "c"; "d"; "e"]) = 3.
Proof.
  destruct (X3_batches_split_the_list 2 ["a"; "b"; "c"; "d"; "e"])
    as (H1 & _ & H3); [lia|].
  split; [exact H1|exact H3].
Defined.

(** ** The attempts of the Word conversion *)

Section Attempts.



End Attempts.





(** ** Identifiers in file names and in results *)

Section Identifiers.






Lemma first_occurrence_matches (pat : Re.pattern) (s m : string) :
  first_occurrence pat s m → matches pat m.
Proof. by intros (i & (pre & post & _ & _ & Hm) & _). Qed.

Lemma scan_pages_Some (pat : Re.pattern) (norm : string → string)
    (pages : list page) (w w' : world) (x : string) :
  scan_pages pat norm pages w = (Ret (Some x), w') →
  ∃ m, matches pat m ∧ x = norm m.
Proof.
  induction pages as [|[text|] rest IH]; simpl; [done| |done].
  destruct (Re.re_search pat text) as [m|] eqn:Hs; [|done].
  intros [= <- <-]. exists m. split; [|done].
  by apply re_search_Some, first_occurrence_matches in Hs.
Qed.




End Identifiers.


Section Results.




End Results.



(** ** The files that were there stay *)

Lemma free_lookup (w : world) (p : string) :
  Os.path_exists w p = false → files w !! p = None.
Proof.
  intros [_ Hf]%is_dir_exists. unfold Os.is_file in Hf.
  apply bool_decide_eq_false in Hf. by apply eq_None_not_Some.
Qed.

Section Keeping.

Context (K : gmap string content).

Lemma kept_insert (m : gmap string content) (p : string) (c : content) :
  K ⊆ m → m !! p = None → K ⊆ <[p := c]> m.
Proof.
  intros HK Hp. apply insert_subseteq_r; [|done].
  by apply (lookup_weaken_None _ _ _ Hp).
Qed.




Lemma kept_save (dst : string) (c : content) (w : world) :
  K ⊆ files w → Os.path_exists w dst = false →
  K ⊆ files (Os.save dst c w).2.
Proof.
  intros HK Hfree. apply free_lookup in Hfree.
  destruct (save_effect dst c w) as [[-> _]|[msg ->]]; [|done]. simpl.
  by apply kept_insert.
Qed.





Lemma try_rename_world {A} (src dst : string) (a b : A) (w : world) :
  (try_except (Os.rename src dst;; mret a) (fun _ => mret b) w).2
  = (Os.rename src dst w).2.
Proof.
  rewrite (try_except_world _ (fun _ => b)).
  by rewrite (bind_mret_world (Os.rename src dst) (fun _ => a)).
Qed.







End Keeping.

Section Loops.

Context (I : world → Prop).

Lemma foldM_invariant {A S} (f : S → A → M S) (l : list A) (s : S)
    (w : world) :
  (∀ s a w, I w → I (f s a w).2) → I w → I (foldM f s l w).2.
Proof.
  intros Hf. revert s w. induction l as [|a l IH]; intros s w Hw; [done|].
  simpl. unfold mbind, M_bind, bind.
  pose proof (Hf s a w Hw) as Hw1.
  destruct (f s a w) as [[s'| |] w1]; simpl in Hw1; [|done..].
  by apply IH.
Qed.


End Loops.

Section KeepingPasses.

Context (K : gmap string content).




End KeepingPasses.



(** ** The copy of the PDFs *)

Section CopyPass.

Lemma foldM_Ret {A S} (P : S → world → Prop) (f : S → A → M S)
    (l : list A) (s s' : S) (w w' : world) :
  (∀ s a w s' w', P s w → f s a w = (Ret s', w') → P s' w') →
  P s w → foldM f s l w = (Ret s', w') → P s' w'.
Proof.
  intros Hf. revert s w. induction l as [|a l IH]; intros s w HP; simpl.
  - by intros [= <- <-].
  - unfold mbind, M_bind, bind.
    destruct (f s a w) as [[s1| |] w1] eqn:Hstep; [|done..].
    apply IH. by apply (Hf s a w).
Qed.






End CopyPass.




(** ** The reconciliation pass renames, and the whole run loses nothing *)

Section Relocation.

Lemma keeps_relocated (w w' : world) : keeps w w' → relocated w w'.
Proof.
  intros HK. exists id. split; [|done].
  intros p c Hp. by apply (lookup_weaken _ _ _ _ Hp).
Qed.

Lemma relocated_refl (w : world) : relocated w w.
Proof. apply keeps_relocated. unfold keeps. reflexivity. Qed.

Lemma relocated_trans (w1 w2 w3 : world) :
  relocated w1 w2 → relocated w2 w3 → relocated w1 w3.
Proof.
  intros (f & Hf & Hfi) (g & Hg & Hgi). exists (g ∘ f). split.
  - intros p c Hp. simpl. by apply Hg, Hf.
  - intros p q [c Hp] [d Hq] Heq. apply Hfi; [by eexists..|].
    apply Hgi; [|by (eexists; apply Hf)| done]. eexists. by apply Hf.
Qed.


Lemma moved_relocated (p q : string) (c : content) (w w' : world) :
  files w !! p = Some c →
  files w !! q = None ∨ q = p →
  files w' = <[q := c]> (delete p (files w)) →
  relocated w w' ∧ size (files w') = size (files w).
Proof.
  intros Hp Hq Hw'. unfold relocated. rewrite Hw'. split.
  - exists (fun x => if decide (x = p) then q else x). split.
    + intros x cx Hx. cbv beta. destruct (decide (x = p)) as [->|Hne].
      * rewrite lookup_insert_eq. congruence.
      * assert (x ≠ q) as Hxq.
        { intros ->. destruct Hq as [Hq|Hq]; congruence. }
        rewrite lookup_insert_ne by done. by rewrite lookup_delete_ne.
    + intros x y [cx Hx] [cy Hy]. cbv beta.
      destruct (decide (x = p)) as [->|Hx'], (decide (y = p)) as [->|Hy'];
        try done.
      * intros <-. destruct Hq as [Hq|Hq]; congruence.
      * intros ->. destruct Hq as [Hq|Hq]; congruence.
  - destruct Hq as [Hq| ->].
    + assert (q ≠ p) by congruence.
      rewrite map_size_insert_None by (by rewrite lookup_delete_ne).
      pose proof (map_size_delete p (files w)) as Hs. rewrite Hp in Hs.
      simpl in Hs. rewrite Hs.
      assert (size (files w) ≠ 0); [|lia].
      intros H0. apply map_size_empty_inv in H0. rewrite H0 in Hp.
      by rewrite lookup_empty in Hp.
    + rewrite insert_delete_eq. by rewrite insert_id.
Qed.

Lemma renaming_refl (w : world) : renaming w w.
Proof. split; [apply relocated_refl|done]. Qed.

Lemma renaming_trans (w1 w2 w3 : world) :
  renaming w1 w2 → renaming w2 w3 → renaming w1 w3.
Proof.
  intros (H1 & S1 & D1) (H2 & S2 & D2). split_and!; [|congruence..].
  by apply (relocated_trans _ w2).
Qed.

Lemma rename_renaming (src dst : string) (w : world) :
  Os.path_exists w dst = false ∨ dst = src →
  renaming w (Os.rename src dst w).2.
Proof.
  intros Hdst.
  destruct (rename_effect src dst w) as [(c & Hc & _ & _ & ->)|[msg ->]];
    [|apply renaming_refl].
  simpl.
  destruct (moved_relocated src dst c w
              (Os.put dst c
                 (Os.remove src
                    (Os.log
                       (Event OpRename (Some src) dst (Os.is_file w dst)) w))))
    as [H1 H2]; try done.
  destruct Hdst as [Hfree| ->]; [|by right]. left. by apply free_lookup.
Qed.

Lemma reconcile_one_renaming (fuel : nat)
    (country_mapping : gmap string string) (updated_count : nat)
    (pdf_file : string) (w : world) :
  renaming w
    (WordToPdf.reconcile_one fuel country_mapping updated_count pdf_file w).2.
Proof.
  unfold WordToPdf.reconcile_one.
  destruct (WordToPdf.rename_plan country_mapping (OsPath.basename pdf_file))
    as [[[pid country] parts]|]; [|apply renaming_refl].
  unfold mbind at 1, M_bind at 1, bind at 1, get_world.
  destruct (WordToPdf.dedup_loop fuel w parts country pdf_file _ 1 _ _)
    as [[name path]|] eqn:Hloop; [|apply renaming_refl].
  apply dedup_loop_stops in Hloop.
  rewrite (try_except_world _ (fun _ => updated_count)).
  rewrite (bind_mret_world (Os.rename pdf_file path)
             (fun _ => updated_count + 1)).
  by apply rename_renaming.
Qed.

Lemma apply_country_mapping_renaming (fuel : nat) (E : env)
    (output_dir : string) (country_mapping : gmap string string) (w : world) :
  renaming w
    (WordToPdf.apply_country_mapping_to_existing_files fuel E output_dir
       country_mapping w).2.
Proof.
  unfold WordToPdf.apply_country_mapping_to_existing_files.
  case_bool_decide; [apply renaming_refl|].
  unfold mbind at 1, M_bind at 1, bind at 1, get_world.
  apply (foldM_invariant (renaming w)); [|apply renaming_refl].
  intros s a w1 Hw1. apply (renaming_trans _ w1); [done|].
  apply reconcile_one_renaming.
Qed.

Lemma reconcile_one_count (fuel : nat)
    (country_mapping : gmap string string) (updated_count n : nat)
    (pdf_file : string) (w w' : world) :
  WordToPdf.reconcile_one fuel country_mapping updated_count pdf_file w
  = (Ret n, w') →
  updated_count ≤ n ≤ updated_count + 1.
Proof.
  unfold WordToPdf.reconcile_one.
  destruct (WordToPdf.rename_plan country_mapping (OsPath.basename pdf_file))
    as [[[pid country] parts]|]; [|intros [= <- <-]; lia].
  unfold mbind at 1, M_bind at 1, bind at 1, get_world.
  destruct (WordToPdf.dedup_loop fuel w parts country pdf_file _ 1 _ _)
    as [[name path]|]; [|done].
  unfold try_except, mbind, M_bind, bind, mret, M_ret, ret.
  destruct (Os.rename pdf_file path w) as [[[]| |] w1]; intros [= <- <-]; lia.
Qed.

Lemma reconcile_loop_count (fuel : nat)
    (country_mapping : gmap string string) (l : list string)
    (updated_count n : nat) (w w' : world) :
  foldM (WordToPdf.reconcile_one fuel country_mapping) updated_count l w
  = (Ret n, w') →
  updated_count ≤ n ≤ updated_count + length l.
Proof.
  revert updated_count w. induction l as [|a l IH]; intros c w; simpl.
  - intros [= <- <-]. lia.
  - unfold mbind, M_bind, bind.
    destruct (WordToPdf.reconcile_one fuel country_mapping c a w)
      as [[c1| |] w1] eqn:Hstep; [|done..].
    apply reconcile_one_count in Hstep. intros Hrest%IH. lia.
Qed.

End Relocation.

(** X10.  Whatever its outcome, [apply_country_mapping_to_existing_files]
    only renames: every file is still there with its content, under its name
    or another one, no two files end at the same place, the number of files
    and the directories are as before; and the count it returns is at most
    the number of PDFs found. *)
Theorem X10_reconciliation_only_renames (fuel : nat) (E : env)
    (output_dir : string) (country_mapping : gmap string string) (w : world) :
  let run :=
    WordToPdf.apply_country_mapping_to_existing_files fuel E output_dir
      country_mapping w in
  relocated w run.2
  ∧ size (files run.2) = size (files w)
  ∧ dirs run.2 = dirs w
  ∧ ∀ n, run.1 = Ret n →
         n ≤ length (filter (fun p => WordToPdf.is_pdf_name (OsPath.basename p))
                       (walk_files E w output_dir)).
Proof.
  intros run.
  destruct (apply_country_mapping_renaming fuel E output_dir country_mapping w)
    as (H1 & H2 & H3).
  split_and!; [done..|].
  intros n. unfold run, WordToPdf.apply_country_mapping_to_existing_files.
  case_bool_decide; [intros [= <-]; lia|].
  unfold mbind at 1, M_bind at 1, bind at 1, get_world.
  destruct (foldM _ 0 _ w) as [o w'] eqn:Hloop. simpl. intros ->.
  apply reconcile_loop_count in Hloop. lia.
Qed.

Lemma X10_reconciliation_only_renames_witness :
  1 ≤ length (filter (fun p => WordToPdf.is_pdf_name (OsPath.basename p))
                (walk_files plain_env untagged_world "out")).
Proof.
  destruct (X10_reconciliation_only_renames 5 plain_env "out" kenya
              untagged_world) as (_ & _ & _ & H).
  apply (H 1). evaluated.
Defined.


Section Pipeline.






End Pipeline.


Section RunOfFolder.

Lemma convert_word_files_printed (fuel : nat) (E : env)
    (word_files : list string) (batch_size : nat)
    (output_dir input_dir : string) (rename_with_pid : bool)
    (country_mapping : gmap string string) (w w' : world)
    (printed : option (nat * nat)) :
  WordToPdf.convert_word_files fuel E word_files batch_size output_dir
    input_dir rename_with_pid country_mapping w = (Ret printed, w') →
  (printed = None ↔ word_files = []).
Proof.
  unfold WordToPdf.convert_word_files. destruct word_files as [|f fs].
  - intros [= <- <-]. done.
  - unfold mbind, M_bind, bind, mret, M_ret, ret.
    destruct (foldM _ _ _ w) as [[[]| |] w1]; [|done..].
    intros [= <- <-]. done.
Qed.

End RunOfFolder.

(** X22.  The run of [convert_folder_to_pdf] returns, and then with the
    exit code 0, only when the input folder has a Word document: without
    one, [successful] is not bound where line 658 reads it, and the run ends
    in an exception once the PDFs are copied and the first reconciliation is
    made. *)
Theorem X22_run_needs_a_word_document (fuel : nat) (E : env)
    (psutil_total : option N) (input_dir output_dir : string)
    (rename_with_pid : bool) (country_mapping : gmap string string)
    (w w' : world) (code : nat) :
  WordToPdf.convert_folder_to_pdf fuel E psutil_total input_dir output_dir
    rename_with_pid country_mapping w = (Ret code, w') →
  code = 0
  ∧ filter (fun p => WordToPdf.is_word_name (OsPath.basename p))
      (walk_files E (Os.makedirs output_dir w).2 input_dir) ≠ [].
Proof.
  unfold WordToPdf.convert_folder_to_pdf.
  unfold mbind at 1, M_bind at 1, bind at 1.
  destruct (Os.makedirs output_dir w) as [[[]| |] w1]; [|done..].
  unfold mbind at 1, M_bind at 1, bind at 1, get_world. cbn [snd].
  unfold mbind at 1, M_bind at 1, bind at 1.
  destruct (WordToPdf.convert_word_files _ _ _ _ _ _ _ _ w1)
    as [[printed| |] w2] eqn:Hconv; [|done..].
  apply convert_word_files_printed in Hconv.
  unfold mbind at 1, M_bind at 1, bind at 1.
  destruct (WordToPdf.copy_existing_pdfs _ _ _ _ _ _ w2) as [[r| |] w3];
    [|done..].
  unfold mbind at 1, M_bind at 1, bind at 1.
  destruct (WordToPdf.finalize_countries _ _ _ _ w3) as [[[]| |] w4];
    [|done..].
  destruct printed as [counts|]; [|done].
  unfold mbind, M_bind, bind, mret, M_ret, ret.
  destruct (WordToPdf.finalize_countries _ _ _ _ w4) as [[[]| |] w5];
    [|done..].
  intros [= <- <-]. split; [done|].
  intros Hnone. by apply Hconv in Hnone.
Qed.

Lemma X22_run_needs_a_word_document_witness :
  let w := World {[ "in/good.docx" := WordDoc ]} {[ "in" ]} ∅ [] in
  (WordToPdf.convert_folder_to_pdf 9 project_env None "in" "out" true ∅ w).1 = Ret 0
  ∧ filter (fun p => WordToPdf.is_word_name (OsPath.basename p))
      (walk_files project_env (Os.makedirs "out" w).2 "in") ≠ [].
Proof.
  intros w. split; [evaluated|].
  refine (proj2 (X22_run_needs_a_word_document 9 project_env None "in" "out"
                   true ∅ w
                   (WordToPdf.convert_folder_to_pdf 9 project_env None "in" "out" true
                      ∅ w).2 0 _)).
  evaluated.
Defined.

(** A folder with one PDF and no Word document: the PDF is copied under
    its identifier, and the run ends in the exception. *)
Lemma run_without_word_documents :
  let w := World {[ "in/a.pdf" := Pdf (Some [Some "Project P654321"]) ]}
             {[ "in" ]} ∅ [] in
  let run := WordToPdf.convert_folder_to_pdf 9 project_env None "in" "out" true ∅ w in
  run.1 = Exc "local variable 'successful' referenced before assignment"
  ∧ dom (files run.2) = {[ "in/a.pdf"; "out/P654321_NON.pdf" ]}.
Proof. intros w run. split; evaluated. Qed.


(** ** The name a file ends with *)

Section FinalName.

Lemma gather_text_independent (pages : list page) (acc : string)
    (w w' : world) :
  (WordToPdf.gather_text pages acc w).1
  = (WordToPdf.gather_text pages acc w').1.
Proof.
  revert acc. induction pages as [|[text|] rest IH]; intros acc; simpl;
    [done| |done].
  destruct (PyStr.truthy text); [|apply IH].
  destruct (1000 <? String.length (acc +:+ text)); [done|apply IH].
Qed.

(** The verdict of the classifier depends on the content of the file
    only. *)
Lemma detect_language_content (E : env) (p p' : string) (w w' : world) :
  files w !! p = files w' !! p' →
  (WordToPdf.detect_language E p w).1 = (WordToPdf.detect_language E p' w').1.
Proof.
  intros Heq.
  unfold WordToPdf.detect_language, WordToPdf.detect_language_within,
    try_except, mbind, M_bind, bind, Os.read_pdf.
  rewrite Heq. destruct (files w' !! p') as [[[pages|]|]|]; try done.
  pose proof (gather_text_independent
                (take (min (length pages) 3) pages) "" w w') as Hg.
  destruct (gather_text_result (take (min (length pages) 3) pages) "" w)
    as [[t Ht]|[msg Ht]],
    (gather_text_result (take (min (length pages) 3) pages) "" w')
    as [[t' Ht']|[msg' Ht']]; rewrite Ht, Ht' in Hg |- *; simpl in Hg;
    try done.
  injection Hg as ->.
  destruct (100 <? String.length t'); [|done].
  by destruct (detect E t').
Qed.

Lemma detect_language_moved (E : env) (p p' : string) (w w' : world)
    (tag : string) :
  files w !! p = files w' !! p' →
  WordToPdf.detect_language E p w = (Ret tag, w) →
  WordToPdf.detect_language E p' w' = (Ret tag, w').
Proof.
  intros Heq Hrun. destruct (detect_language_pure E p' w') as [tag' Htag'].
  pose proof (detect_language_content E p p' w w' Heq) as H.
  rewrite Hrun, Htag' in H. simpl in H. by injection H as ->.
Qed.

Lemma rename_runs (src dst : string) (c : content) (w : world) :
  files w !! src = Some c →
  src ∉ locked w →
  Os.is_dir w dst = false →
  Os.dir_exists w (OsPath.dirname dst) = true →
  Os.rename src dst w
  = (Ret tt,
     Os.put dst c
       (Os.remove src
          (Os.log (Event OpRename (Some src) dst (Os.is_file w dst)) w))).
Proof.
  intros Hc Hl Hd Hp. unfold Os.rename. rewrite Hc.
  rewrite bool_decide_eq_false_2 by done. by rewrite Hd, Hp.
Qed.

Lemma copy2_runs (src dst : string) (c : content) (w : world) :
  files w !! src = Some c →
  Os.path_exists w dst = false →
  Os.dir_exists w (OsPath.dirname dst) = true →
  Os.copy2 src dst w
  = (Ret tt,
     Os.put dst c
       (Os.log (Event OpCopy (Some src) dst (Os.is_file w dst)) w)).
Proof.
  intros Hc Hfree Hp. pose proof (free_lookup _ _ Hfree) as Hnone.
  apply is_dir_exists in Hfree as [Hd Hf].
  unfold Os.copy2. rewrite Hc, Hd.
  rewrite bool_decide_eq_false_2 by congruence.
  by rewrite Hd, Hp.
Qed.

(** The final path is the plain one when it is free, or is the place of
    the file itself. *)
Lemma final_pid_path_plain (fuel : nat)
    (target_dir pid country language_suffix current : string) (w : world) :
  Os.path_exists w
    (OsPath.join target_dir
       (WordToPdf.final_name pid country language_suffix None)) = false
  ∨ OsPath.join target_dir
      (WordToPdf.final_name pid country language_suffix None) = current →
  WordToPdf.final_pid_path fuel target_dir pid country language_suffix
    current w
  = (Ret (OsPath.join target_dir
            (WordToPdf.final_name pid country language_suffix None)), w).
Proof.
  intros H. unfold WordToPdf.final_pid_path, mbind, M_bind, bind, Os.exists_.
  destruct H as [->| Heq]; [done|].
  rewrite Heq, String.eqb_refl. simpl. by rewrite andb_false_r.
Qed.

Lemma path_exists_put_remove (w : world) (p q x : string) (c : content)
    (e : event) :
  Os.path_exists w x = false → x ≠ q →
  Os.path_exists (Os.put q c (Os.remove p (Os.log e w))) x = false.
Proof.
  intros Hfree Hne. pose proof (free_lookup _ _ Hfree) as Hnone.
  apply is_dir_exists in Hfree as [Hd _].
  unfold Os.path_exists, Os.is_file, Os.is_dir in *. simpl.
  rewrite Hd, orb_false_r. apply bool_decide_eq_false.
  rewrite lookup_insert_ne by done. intros [y Hy].
  apply lookup_delete_Some in Hy as [_ Hy]. congruence.
Qed.

Lemma path_exists_put (w : world) (q x : string) (c : content) (e : event) :
  Os.path_exists w x = false → x ≠ q →
  Os.path_exists (Os.put q c (Os.log e w)) x = false.
Proof.
  intros Hfree Hne. pose proof (free_lookup _ _ Hfree) as Hnone.
  apply is_dir_exists in Hfree as [Hd _].
  unfold Os.path_exists, Os.is_file, Os.is_dir in *. simpl.
  rewrite Hd, orb_false_r. apply bool_decide_eq_false.
  rewrite lookup_insert_ne by done. rewrite Hnone. by intros [? ?].
Qed.

End FinalName.

(** X12.  When the converted file can be moved and the names
    [<id>.pdf] and [<id>_<country>_<language>.pdf] (without the country when
    the mapping has none for the identifier) are free in the target
    directory, the two renames of [process_file] leave the file under the
    latter name, [language] being the verdict of [detect_language] on it,
    and the identifier is reported. *)
Theorem X12_file_gets_identifier_country_language (fuel : nat) (E : env)
    (file_path target_dir pdf_path pid tag : string)
    (country_mapping : gmap string string) (c : content) (w : world) :
  let country := WordToPdf.country_of country_mapping pid in
  let base := OsPath.join target_dir (pid +:+ ".pdf") in
  let final :=
    OsPath.join target_dir (WordToPdf.final_name pid country tag None) in
  files w !! pdf_path = Some c →
  WordToPdf.detect_language E pdf_path w = (Ret tag, w) →
  pdf_path ∉ locked w → base ∉ locked w →
  Os.path_exists w base = false →
  Os.path_exists w final = false →
  Os.dir_exists w (OsPath.dirname base) = true →
  Os.dir_exists w (OsPath.dirname final) = true →
  (∃ w',
     WordToPdf.rename_with_identifier fuel E file_path target_dir pdf_path pid
       country_mapping w
     = (Ret (WordToPdf.Result file_path true None (Some pid)), w')
     ∧ files w' = <[final := c]> (delete pdf_path (files w)))
  ∧ WordToPdf.final_name pid country tag None
    = (if PyStr.truthy country
       then pid +:+ "_" +:+ country +:+ "_" +:+ tag +:+ ".pdf"
       else pid +:+ "_" +:+ tag +:+ ".pdf").
Proof.
  intros country base final Hc Htag Hl Hlb Hbase Hfinal Hdb Hdf.
  split; [|done].
  unfold WordToPdf.rename_with_identifier.
  unfold mbind at 1, M_bind at 1, bind at 1.
  assert (WordToPdf.base_pid_path fuel target_dir pid w = (Ret base, w)) as ->.
  { unfold WordToPdf.base_pid_path, mbind, M_bind, bind, Os.exists_.
    fold base. by rewrite Hbase. }
  unfold mbind at 1, M_bind at 1, bind at 1.
  pose proof (is_dir_exists _ _ Hbase) as [Hbd _].
  pose proof (is_dir_exists _ _ Hfinal) as [Hfd _].
  unfold try_except at 1. unfold mbind at 1, M_bind at 1, bind at 1.
  rewrite (rename_runs pdf_path base c w Hc Hl Hbd Hdb).
  set (w1 := Os.put base c _).
  unfold mret at 1, M_ret at 1, ret at 1. cbn [negb].
  assert (files w1 !! base = Some c) as Hb1 by apply lookup_insert_eq.
  unfold mbind at 1, M_bind at 1, bind at 1.
  rewrite (detect_language_moved E pdf_path base w w1 tag);
    [|by rewrite Hc, Hb1|done].
  unfold mbind at 1, M_bind at 1, bind at 1. fold country.
  rewrite (final_pid_path_plain fuel target_dir pid country tag base w1).
  2:{ fold final. destruct (decide (final = base)) as [Heq|Hne]; [by right|].
      left. by apply path_exists_put_remove. }
  fold final. unfold try_except, mbind, M_bind, bind.
  rewrite (rename_runs base final c w1 Hb1); [| |done|done].
  2:{ done. }
  eexists. split; [done|]. simpl.
  rewrite delete_insert_id; [done|].
  apply lookup_delete_None. right. by apply free_lookup.
Qed.

Lemma X12_file_gets_identifier_country_language_witness :
  let c := Pdf (Some [Some "Project P654321 appraisal"]) in
  let w := World {[ "out/report.pdf" := c ]} {[ "out" ]} ∅ [] in
  ∃ w',
    WordToPdf.rename_with_identifier 0 plain_env "in/report.docx" "out"
      "out/report.pdf" "P654321" {[ "P654321" := "Sri Lanka" ]} w
    = (Ret (WordToPdf.Result "in/report.docx" true None (Some "P654321")), w')
    ∧ files w'
      = <["out/P654321_Sri_Lanka_NON.pdf" := c]>
          (delete "out/report.pdf" (files w)).
Proof.
  intros c w.
  refine (proj1 (X12_file_gets_identifier_country_language 0 plain_env
                   "in/report.docx" "out" "out/report.pdf" "P654321" "NON"
                   {[ "P654321" := "Sri Lanka" ]} c w _ _ _ _ _ _ _ _)).
  - evaluated.
  - evaluated.
  - apply not_elem_of_empty.
  - apply not_elem_of_empty.
  - evaluated.
  - evaluated.
  - evaluated.
  - evaluated.
Defined.


(** X13.  In the same situation, [copy_existing_pdfs] leaves the source
    in place, adds its copy as [<id>_<country>_<language>.pdf] in the target
    directory, counts it as copied and records the identifier for that
    path. *)
Theorem X13_copy_gets_identifier_country_language (fuel : nat) (E : env)
    (pdf_file target_dir pid tag : string)
    (country_mapping : gmap string string) (st : WordToPdf.copy_state)
    (c : content) (w : world) :
  let country := WordToPdf.country_of country_mapping pid in
  let base := OsPath.join target_dir (pid +:+ ".pdf") in
  let final :=
    OsPath.join target_dir (WordToPdf.final_name pid country tag None) in
  files w !! pdf_file = Some c →
  WordToPdf.detect_language E pdf_file w = (Ret tag, w) →
  base ∉ locked w →
  Os.path_exists w base = false →
  Os.path_exists w final = false →
  Os.dir_exists w (OsPath.dirname base) = true →
  Os.dir_exists w (OsPath.dirname final) = true →
  ∃ w',
    WordToPdf.copy_with_identifier fuel E pdf_file target_dir pid
      country_mapping st w
    = (Ret (WordToPdf.CopyState (WordToPdf.copied st + 1)
              (WordToPdf.skipped st)
              (<[final := pid]> (WordToPdf.pid_mapping st))), w')
    ∧ files w' = <[final := c]> (files w).
Proof.
  intros country base final Hc Htag Hlb Hbase Hfinal Hdb Hdf.
  unfold WordToPdf.copy_with_identifier.
  unfold mbind at 1, M_bind at 1, bind at 1.
  assert (WordToPdf.base_pid_path fuel target_dir pid w = (Ret base, w)) as ->.
  { unfold WordToPdf.base_pid_path, mbind, M_bind, bind, Os.exists_.
    fold base. by rewrite Hbase. }
  unfold mbind at 1, M_bind at 1, bind at 1.
  rewrite (copy2_runs pdf_file base c w Hc Hbase Hdb).
  set (w1 := Os.put base c _).
  assert (files w1 !! base = Some c) as Hb1 by apply lookup_insert_eq.
  unfold mbind at 1, M_bind at 1, bind at 1.
  rewrite (detect_language_moved E pdf_file base w w1 tag);
    [|by rewrite Hc, Hb1|done].
  unfold mbind at 1, M_bind at 1, bind at 1. fold country.
  rewrite (final_pid_path_plain fuel target_dir pid country tag base w1).
  2:{ fold final. destruct (decide (final = base)) as [Heq|Hne]; [by right|].
      left. by apply path_exists_put. }
  fold final. unfold try_except, mbind, M_bind, bind.
  pose proof (is_dir_exists _ _ Hfinal) as [Hfd _].
  rewrite (rename_runs base final c w1 Hb1); [|done|done|done].
  eexists. split; [done|]. simpl.
  rewrite delete_insert_id; [done|]. by apply free_lookup.
Qed.

Lemma X13_copy_gets_identifier_country_language_witness :
  let c := Pdf (Some [Some "Project P654321 appraisal"]) in
  let w := World {[ "in/a.pdf" := c ]} {[ "in"; "out" ]} ∅ [] in
  ∃ w',
    WordToPdf.copy_with_identifier 0 plain_env "in/a.pdf" "out" "P654321" ∅
      (WordToPdf.CopyState 0 0 ∅) w
    = (Ret (WordToPdf.CopyState 1 0
              {[ "out/P654321_NON.pdf" := "P654321" ]}), w')
    ∧ files w' = <["out/P654321_NON.pdf" := c]> (files w).
Proof.
  intros c w.
  refine (X13_copy_gets_identifier_country_language 0 plain_env "in/a.pdf"
            "out" "P654321" "NON" ∅ (WordToPdf.CopyState 0 0 ∅) c w
            _ _ _ _ _ _ _).
  - evaluated.
  - evaluated.
  - apply not_elem_of_empty.
  - evaluated.
  - evaluated.
  - evaluated.
  - evaluated.
Defined.


(** ** PID_RENAME.py: what a run does to a document *)

Section PidRenameOutcomes.

Lemma pid_rename_extract_total (pdf_path : string) (w : world) :
  ∃ o, PidRename.extract_project_id pdf_path w = (Ret o, w).
Proof.
  unfold PidRename.extract_project_id, try_except, mbind, M_bind, bind.
  pose proof (read_pdf_pages_of w pdf_path) as Hr.
  destruct (pages_of w pdf_path) as [pages|].
  - rewrite Hr, pid_rename_search_pages.
    generalize (take (min (length pages) 10) pages). intros l.
    induction l as [|[text|] rest IH]; simpl; eauto.
    destruct (Re.re_search Re.pid_digits text); eauto.
  - destruct Hr as [msg ->]. eauto.
Qed.

Lemma pid_rename_extract_well_formed (pdf_path pid : string) (w w' : world) :
  PidRename.extract_project_id pdf_path w = (Ret (Some pid), w') →
  is_project_id pid.
Proof.
  unfold PidRename.extract_project_id, try_except, mbind, M_bind, bind.
  destruct (Os.read_pdf pdf_path w) as [[pages| |] w1]; [|done..].
  rewrite pid_rename_search_pages.
  destruct (scan_pages _ _ _ w1) as [[[x|]| |] w2] eqn:Hscan; try done.
  intros [= <- <-]. by apply scan_pages_Some in Hscan as (m & Hm & ->).
Qed.

Lemma new_name_result (fuel : nat) (folder pid name path : string)
    (w w' : world) :
  PidRename.new_name fuel folder pid w = (Ret (name, path), w') →
  w' = w
  ∧ path = OsPath.join folder name
  ∧ Os.path_exists w path = false
  ∧ (name = pid +:+ ".pdf" ∨ ∃ k, 1 ≤ k ∧ name = plain_counter_name pid k).
Proof.
  unfold PidRename.new_name. destruct fuel as [|fuel]; [done|].
  cbn [PidRename.name_loop].
  destruct (Os.path_exists w (OsPath.join folder (pid +:+ ".pdf"))) eqn:Hex.
  - fold (plain_counter_name pid 1). rewrite name_loop_counts.
    destruct (first_counter fuel _ 1) as [k|] eqn:Hk; [|done]. simpl.
    intros [= <- <- <-]. apply first_counter_Some in Hk as (Hfree & Hk & _).
    split_and!; [done|done| |right; by exists k].
    unfold is_free in Hfree. by apply negb_true_iff in Hfree.
  - intros [= <- <- <-]. split_and!; [done|done|done|by left].
Qed.

Lemma cleanup_none (w : world) : PidRename.cleanup None w = (Ret tt, w).
Proof. done. Qed.

End PidRenameOutcomes.




Section WordOutcomes.

Lemma unlink_effect (p : string) (w : world) :
  (∃ c, files w !! p = Some c ∧ (p ∉ locked w)
     ∧ Os.unlink p w = (Ret tt, Os.remove p w))
  ∨ ((files w !! p = None ∨ p ∈ locked w)
     ∧ ∃ msg, Os.unlink p w = (Exc msg, w)).
Proof.
  unfold Os.unlink. destruct (files w !! p) as [c|]; [|right; eauto].
  case_bool_decide; [right; eauto|]. left. by exists c.
Qed.

Lemma convert_word_to_pdf_cases (E : env) (word_path : string) (w : world) :
  PidRename.convert_word_to_pdf E word_path w = (Ret None, w)
  ∨ ∃ doc,
      docx2pdf_convert E word_path = inl doc
      ∧ PidRename.convert_word_to_pdf E word_path w
        = (Ret (Some (OsPath.with_suffix word_path ".pdf")),
           Os.put (OsPath.with_suffix word_path ".pdf") (Pdf doc)
             (Os.log
                (Event OpSave None (OsPath.with_suffix word_path ".pdf")
                   (Os.is_file w (OsPath.with_suffix word_path ".pdf"))) w)).
Proof.
  unfold PidRename.convert_word_to_pdf, try_except.
  destruct (docx2pdf_convert E word_path) as [doc|e]; [|by left].
  unfold mbind, M_bind, bind.
  destruct (save_effect (OsPath.with_suffix word_path ".pdf") (Pdf doc) w)
    as [[-> _]|[msg ->]]; [|by left].
  right. by exists doc.
Qed.

(** The clean-up in the handler of [process_and_rename_document]: the
    converted PDF is gone afterwards unless it is locked. *)
Lemma cleanup_in_handler (p : string) (w : world) :
  PyStr.truthy p = true →
  ∃ w', (try_except (PidRename.cleanup (Some p)) (fun _ => mret tt);;
         mret false) w = (Ret false, w')
    ∧ (w' = w ∨ w' = Os.remove p w)
    ∧ (p ∉ locked w → files w' !! p = None).
Proof.
  intros Hp. unfold PidRename.cleanup. rewrite Hp.
  unfold try_except, mbind, M_bind, bind, mret, M_ret, ret.
  destruct (unlink_effect p w) as [(c & Hc & Hl & ->)|[Hwhy [msg ->]]].
  - exists (Os.remove p w). split_and!; [done|by right|].
    intros _. apply lookup_delete_eq.
  - exists w. split_and!; [done|by left|].
    intros Hl. destruct Hwhy; done.
Qed.

End WordOutcomes.

(** X15.  For a Word document, [process_and_rename_document] of
    [PID_RENAME.py] either returns [False] with nothing changed because the
    conversion gave no PDF, or has converted it; then no file is left at
    [<stem>.pdf] unless it is locked, whether or not one was there before,
    and when the result is [True] the Word document is gone and the PDF is at
    [<id>.pdf] or [<id>_<k>.pdf] in the folder. *)
Theorem X15_pid_rename_word_outcome (fuel : nat) (E : env)
    (doc_path folder : string) (w w' : world) (b : bool) :
  let pdf_path := OsPath.with_suffix doc_path ".pdf" in
  PyStr.lower (PidRename.suffix doc_path) ∈ [".doc"; ".docx"] →
  PidRename.process_and_rename_document fuel E doc_path folder w
  = (Ret b, w') →
  (b = false ∧ w' = w
   ∧ PidRename.convert_word_to_pdf E doc_path w = (Ret None, w))
  ∨ ∃ doc,
      docx2pdf_convert E doc_path = inl doc
      ∧ (pdf_path ∉ locked w → files w' !! pdf_path = None)
      ∧ (b = true →
         ∃ pid name,
           is_project_id pid
           ∧ (name = pid +:+ ".pdf"
              ∨ ∃ k, 1 ≤ k ∧ name = plain_counter_name pid k)
           ∧ files w'
             = delete doc_path
                 (<[OsPath.join folder name := Pdf doc]>
                    (delete pdf_path (files w)))).
Proof.
  intros pdf_path Hword. unfold PidRename.process_and_rename_document.
  rewrite bool_decide_eq_true_2 by done.
  unfold mbind at 1, M_bind at 1, bind at 1.
  destruct (convert_word_to_pdf_cases E doc_path w)
    as [Hnone|(doc & Hdoc & Hconv)].
  { rewrite Hnone. simpl. unfold mret, M_ret, ret. intros [= <- <-].
    by left. }
  rewrite Hconv. fold pdf_path. set (w1 := Os.put pdf_path (Pdf doc) _).
  assert (PyStr.truthy pdf_path = true) as Htruthy.
  { unfold pdf_path, OsPath.with_suffix. by do 2 apply truthy_app_r. }
  assert (files w1 !! pdf_path = Some (Pdf doc)) as Hpdf1
    by apply lookup_insert_eq.
  assert (locked w1 = locked w) as Hl1 by done.
  change (truthy_opt (Some pdf_path)) with (PyStr.truthy pdf_path).
  rewrite Htruthy. change (negb true) with false. cbv iota.
  change (default "" (Some pdf_path)) with pdf_path.
  intros Hrun. right. exists doc. split; [done|]. revert Hrun.
  unfold PidRename.rename_or_discard.
  unfold try_except at 1.
  unfold mbind at 1, M_bind at 1, bind at 1.
  destruct (pid_rename_extract_total pdf_path w1) as [o Ho]. rewrite Ho.
  destruct (truthy_opt o) eqn:Hto.
  - destruct o as [pid|]; [|done]. simpl default.
    unfold mbind at 1, M_bind at 1, bind at 1.
    destruct (PidRename.new_name fuel folder pid w1) as [[[name path]| |] w2]
      eqn:Hname; simpl; [| |done].
    2:{ unfold PidRename.new_name in Hname.
        by destruct (PidRename.name_loop _ _ _ _ _ _ _). }
    apply new_name_result in Hname as (-> & -> & Hfree & Hshape).
    unfold mbind at 1, M_bind at 1, bind at 1.
    unfold mbind at 1, M_bind at 1, bind at 1.
    destruct (rename_effect pdf_path (OsPath.join folder name) w1)
      as [(c & Hc & _ & Hlock & ->)|[msg ->]].
    + assert (c = Pdf doc) as -> by congruence.
      set (w2 := Os.put (OsPath.join folder name) (Pdf doc) _).
      assert (OsPath.join folder name ≠ pdf_path) as Hne.
      { intros Heq. apply free_lookup in Hfree. congruence. }
      assert (files w2
              = <[OsPath.join folder name := Pdf doc]>
                  (delete pdf_path (files w))) as Hw2.
      { unfold w2, w1. simpl. by rewrite delete_insert_eq. }
      assert (files w2 !! pdf_path = None) as Hgone.
      { rewrite Hw2, lookup_insert_ne by done. apply lookup_delete_eq. }
      destruct (unlink_effect doc_path w2)
        as [(c & Hc' & Hl & ->)|[_ [msg ->]]].
      * unfold mret, M_ret, ret. intros [= <- <-]. split.
        -- intros _. simpl. apply lookup_delete_None.
           destruct (decide (doc_path = pdf_path)); [by left|by right].
        -- intros _. exists pid, name. split_and!; [|done|].
           ++ by apply pid_rename_extract_well_formed in Ho.
           ++ simpl. by rewrite <- Hw2.
      * cbv beta iota. fold (PidRename.cleanup (Some pdf_path)).
        destruct (cleanup_in_handler pdf_path w2 Htruthy)
          as (w3 & -> & [->| ->] & _); intros [= <- <-];
          (split; [intros _|done]); simpl; [done|].
        apply lookup_delete_eq.
    + cbv beta iota. fold (PidRename.cleanup (Some pdf_path)).
      destruct (cleanup_in_handler pdf_path w1 Htruthy)
        as (w3 & -> & _ & Hgone); intros [= <- <-].
      split; [|done]. intros Hl. apply Hgone. by rewrite Hl1.
  - unfold mbind at 1, M_bind at 1, bind at 1.
    unfold PidRename.cleanup at 1. rewrite Htruthy.
    destruct (unlink_effect pdf_path w1)
      as [(c & Hc' & Hl & ->)|[Hwhy [msg ->]]].
    + unfold mret, M_ret, ret. intros [= <- <-]. split; [|done].
      intros _. apply lookup_delete_eq.
    + cbv beta iota. fold (PidRename.cleanup (Some pdf_path)).
      destruct (cleanup_in_handler pdf_path w1 Htruthy)
        as (w3 & -> & _ & Hgone); intros [= <- <-].
      split; [|done]. intros Hl. apply Hgone. by rewrite Hl1.
Qed.

Lemma X15_pid_rename_word_outcome_witness :
  let run :=
    PidRename.process_and_rename_document 3 plain_env "d/a.docx" "d"
      word_folder in
  run.1 = Ret false
  ∧ ∃ doc, docx2pdf_convert plain_env "d/a.docx" = inl doc
      ∧ files run.2 !! "d/a.pdf" = None.
Proof.
  intros run. split; [evaluated|].
  destruct (X15_pid_rename_word_outcome 3 plain_env "d/a.docx" "d"
              word_folder run.2 false)
    as [(_ & _ & H)|(doc & Hdoc & Hgone & _)].
  - apply (bool_decide_unpack _). evaluated.
  - evaluated.
  - by vm_compute in H.
  - exists doc. split; [done|]. apply Hgone. apply not_elem_of_empty.
Defined.


Section FolderRuns.

Lemma count_document_step (fuel : nat) (E : env) (folder : string)
    (s t s' t' : nat) (doc_file : string) (w w' : world) :
  PidRename.count_document fuel E folder (s, t) doc_file w
  = (Ret (s', t'), w') →
  t' = t + 1 ∧ s ≤ s' ≤ s + 1.
Proof.
  unfold PidRename.count_document, mbind, M_bind, bind, mret, M_ret, ret.
  destruct (PidRename.process_and_rename_document fuel E doc_file folder w)
    as [[[|]| |] w1]; intros [= <- <- <-]; lia.
Qed.

Lemma count_documents_loop (fuel : nat) (E : env) (folder : string)
    (l : list string) (s t s' t' : nat) (w w' : world) :
  foldM (PidRename.count_document fuel E folder) (s, t) l w
  = (Ret (s', t'), w') →
  t' = t + length l ∧ s ≤ s' ≤ s + length l.
Proof.
  revert s t w. induction l as [|a l IH]; intros s t w; cbn [foldM length].
  - intros [= <- <- <-]. lia.
  - unfold mbind at 1, M_bind at 1, bind at 1.
    destruct (PidRename.count_document fuel E folder (s, t) a w)
      as [[[s1 t1]| |] w1] eqn:Hstep; [|done..].
    apply count_document_step in Hstep. intros Hrest%IH. lia.
Qed.

End FolderRuns.

(** X16.  [rename_documents_with_project_ids] raises [Folder not found]
    and touches nothing when the folder does not exist; when it returns, the
    number of documents renamed is at most the number of documents seen. *)
Theorem X16_folder_run_counts (fuel : nat) (E : env)
    (glob : world → string → string → list string) (folder_path : string)
    (w : world) :
  (Os.path_exists w folder_path = false →
   PidRename.rename_documents_with_project_ids fuel E glob folder_path w
   = (Exc ("Folder not found: " +:+ folder_path), w))
  ∧ ∀ successful total w',
      PidRename.rename_documents_with_project_ids fuel E glob folder_path w
      = (Ret (successful, total), w') →
      successful ≤ total.
Proof.
  unfold PidRename.rename_documents_with_project_ids. split.
  - intros Hmissing. unfold mbind, M_bind, bind, Os.exists_.
    by rewrite Hmissing.
  - intros successful total w'.
    unfold mbind at 1, M_bind at 1, bind at 1, Os.exists_.
    destruct (Os.path_exists w folder_path); [|done]. cbn [negb].
    assert (∀ patterns s t s' t' w1 w2,
              foldM
                (fun counts pattern =>
                   w ← get_world;
                   foldM (PidRename.count_document fuel E folder_path) counts
                     (glob w folder_path pattern))
                (s, t) patterns w1 = (Ret (s', t'), w2) →
              s' + t ≤ s + t') as Hloop.
    { induction patterns as [|pat patterns IH]; intros s t s' t' w1 w2;
        cbn [foldM].
      - intros [= <- <- <-]. lia.
      - unfold mbind at 1, M_bind at 1, bind at 1.
        unfold mbind at 1, M_bind at 1, bind at 1, get_world.
        destruct (foldM _ (s, t) (glob w1 folder_path pat) w1)
          as [[[s1 t1]| |] w3] eqn:Hinner; [|done..].
        apply count_documents_loop in Hinner. intros Hrest%IH. lia. }
    intros Hrun%Hloop. lia.
Qed.

Lemma X16_folder_run_counts_witness :
  PidRename.rename_documents_with_project_ids 3 plain_env
    (fun _ _ _ => []) "nowhere" word_folder
  = (Exc "Folder not found: nowhere", word_folder).
Proof.
  refine (proj1 (X16_folder_run_counts 3 plain_env (fun _ _ _ => [])
                   "nowhere" word_folder) _).
  reflexivity.
Defined.


(** ** docx2pdf_converter.py: the counts of [main] *)

Section MainOfConverter.

Lemma converter_process_file_returns (E : env) (file_path output_dir : string)
    (w : world) :
  ∃ ok e w', Docx2pdfConverter.process_file E file_path output_dir w
             = (Ret (file_path, ok, e), w').
Proof.
  unfold Docx2pdfConverter.process_file, try_except.
  destruct (negb (String.eqb (platform_system E) "Windows")).
  { unfold raise, mret, M_ret, ret. eauto. }
  unfold mbind, M_bind, bind, Docx2pdfConverter.convert_with_word.
  destruct (word_attempts_effect E file_path
              (OsPath.join output_dir (OsPath.stem file_path +:+ ".pdf"))
              2 0 3 w) as [(doc & k & _ & _ & _ & ->)|[msg ->]];
    unfold mret, M_ret, ret; eauto.
Qed.

Lemma converter_results (E : env) (output_dir : string) (batch : list string)
    (w : world) :
  ∃ results w',
    mapM' (fun file => Docx2pdfConverter.process_file E file output_dir) batch w
    = (Ret results, w')
    ∧ length results = length batch.
Proof.
  revert w. induction batch as [|a batch IH]; intros w; cbn [mapM'].
  - by exists [], w.
  - unfold mbind at 1, M_bind at 1, bind at 1.
    destruct (converter_process_file_returns E a output_dir w)
      as (ok & e & w1 & ->).
    unfold mbind, M_bind, bind.
    destruct (IH w1) as (results & w2 & -> & Hlen).
    exists ((a, ok, e) :: results), w2. split; [done|]. simpl. by rewrite Hlen.
Qed.

Lemma count_flags_add {A B} (results : list (A * bool * B)) :
  count_flag true results + count_flag false results = length results.
Proof.
  unfold count_flag. induction results as [|[[a b] c] results IH]; [done|].
  simpl. destruct b; simpl; lia.
Qed.

Lemma run_batch_counts (E : env) (args : Docx2pdfConverter.arguments)
    (output_dir : string) (s f s' f' : nat) (batch : list string)
    (w w' : world) :
  Docx2pdfConverter.run_batch E args output_dir (s, f) batch w
  = (Ret (s', f'), w') →
  s' + f' = s + f + length batch.
Proof.
  unfold Docx2pdfConverter.run_batch.
  unfold mbind at 1, M_bind at 1, bind at 1.
  destruct (Docx2pdfConverter.process_pool _ w) as [[[]| |] w1]; [|done..].
  unfold mbind, M_bind, bind, mret, M_ret, ret.
  destruct (converter_results E output_dir batch w1)
    as (results & w2 & -> & Hlen).
  rewrite main_counts_from. intros [= <- <- <-].
  pose proof (count_flags_add results). lia.
Qed.

Lemma run_batches_counts (E : env) (args : Docx2pdfConverter.arguments)
    (output_dir : string) (bs : list (list string)) (s f s' f' : nat)
    (w w' : world) :
  foldM (Docx2pdfConverter.run_batch E args output_dir) (s, f) bs w
  = (Ret (s', f'), w') →
  s' + f' = s + f + length (concat bs).
Proof.
  revert s f w. induction bs as [|b bs IH]; intros s f w; cbn [foldM concat].
  - intros [= <- <- <-]. simpl. lia.
  - unfold mbind at 1, M_bind at 1, bind at 1.
    destruct (Docx2pdfConverter.run_batch E args output_dir (s, f) b w)
      as [[[s1 f1]| |] w1] eqn:Hstep; [|done..].
    apply run_batch_counts in Hstep. intros Hrest%IH.
    rewrite length_app. lia.
Qed.

End MainOfConverter.

(** X17.  [main] of [docx2pdf_converter.py] returns 1, with nothing
    changed and no counts, exactly when the platform is not Windows or the
    input directory is missing, and 0 otherwise; with a positive batch size
    the two counts it prints add up to the number of [.docx] files found, and
    with a negative one both are 0. *)
Theorem X17_converter_counts_every_file (E : env)
    (args : Docx2pdfConverter.arguments) (w w' : world) (code : nat)
    (counts : option (nat * nat)) :
  let output_dir :=
    if truthy_opt (Docx2pdfConverter.output_dir args)
    then default "" (Docx2pdfConverter.output_dir args)
    else Docx2pdfConverter.input_dir args in
  let docx_files :=
    filter (fun p => Docx2pdfConverter.is_docx_name (OsPath.basename p))
      (walk_files E (with_output_dir output_dir w)
         (Docx2pdfConverter.input_dir args)) in
  Docx2pdfConverter.main E args w = (Ret (code, counts), w') →
  (code = 1 ↔ (platform_system E ≠ "Windows"
               ∨ Os.is_dir w (Docx2pdfConverter.input_dir args) = false))
  ∧ (code = 1 → counts = None ∧ w' = w)
  ∧ (code ≠ 1 → code = 0)
  ∧ ∀ successful failed,
      counts = Some (successful, failed) →
      ((0 < Docx2pdfConverter.batch_size args)%Z →
       successful + failed = length docx_files)
      ∧ ((Docx2pdfConverter.batch_size args < 0)%Z →
         successful = 0 ∧ failed = 0).
Proof.
  intros output_dir docx_files. unfold Docx2pdfConverter.main.
  destruct (String.eqb_spec (platform_system E) "Windows") as [Hwin|Hwin];
    cbn [negb].
  2:{ unfold mret, M_ret, ret. intros [= <- <- <-].
      split; [split; [by left|done]|]. split; [done|]. split; [done|].
      by intros s f. }
  unfold mbind at 1, M_bind at 1, bind at 1, get_world.
  destruct (Os.is_dir w (Docx2pdfConverter.input_dir args)) eqn:Hdir;
    cbn [negb].
  2:{ unfold mret, M_ret, ret. intros [= <- <- <-].
      split; [split; [by right|done]|]. split; [done|]. split; [done|].
      by intros s f. }
  fold output_dir.
  unfold mbind at 1, M_bind at 1, bind at 1, Os.exists_.
  unfold mbind at 1, M_bind at 1, bind at 1.
  assert (∀ w1,
            (if negb (Os.path_exists w output_dir)
             then Os.makedirs output_dir else mret tt) w = (Ret tt, w1) →
            w1 = with_output_dir output_dir w) as Hw1.
  { intros w1. unfold with_output_dir.
    destruct (Os.path_exists w output_dir); cbn [negb].
    - by intros [= <-].
    - by intros ->. }
  destruct ((if negb (Os.path_exists w output_dir)
             then Os.makedirs output_dir else mret tt) w)
    as [[[]| |] w1] eqn:Hmk; [|done..].
  rewrite (Hw1 w1 eq_refl).
  unfold mbind at 1, M_bind at 1, bind at 1, get_world. fold docx_files.
  assert (∀ c, c = 0 →
            (c = 1 ↔ (platform_system E ≠ "Windows"
                      ∨ Os.is_dir w (Docx2pdfConverter.input_dir args)
                        = false))
            ∧ (c = 1 → counts = None ∧ w' = w)
            ∧ (c ≠ 1 → c = 0)) as Hcode.
  { intros c ->. split_and!; [|done|done].
    split; [done|]. intros [?|?]; congruence. }
  rewrite Hdir in Hcode.
  destruct docx_files as [|d ds] eqn:Hfiles.
  { unfold mret, M_ret, ret. intros [= <- <- <-].
    destruct (Hcode 0 eq_refl) as (? & ? & ?).
    split; [done|]. split; [done|]. split; [done|]. by intros s f. }
  unfold mbind at 1, M_bind at 1, bind at 1.
  unfold Docx2pdfConverter.batches_of.
  destruct (Z.eqb_spec (Docx2pdfConverter.batch_size args) 0) as [Hz|Hz];
    [done|].
  destruct (Z.ltb_spec (Docx2pdfConverter.batch_size args) 0) as [Hneg|Hpos].
  - unfold mret, M_ret, ret. cbn [foldM].
    unfold mbind, M_bind, bind, mret, M_ret, ret.
    intros [= <- <- <-]. destruct (Hcode 0 eq_refl) as (? & ? & ?).
    split; [done|]. split; [done|]. split; [done|].
    intros s f [= <- <-]. split; [lia|done].
  - unfold mret at 1, M_ret at 1, ret at 1.
    unfold mbind, M_bind, bind, mret, M_ret, ret.
    destruct (foldM _ (0, 0) _ _) as [[[s f]| |] w2] eqn:Hloop; [|done..].
    intros [= <- <- <-]. destruct (Hcode 0 eq_refl) as (? & ? & ?).
    split; [done|]. split; [done|]. split; [done|].
    intros s' f' [= <- <-]. split; [|lia].
    intros _. apply run_batches_counts in Hloop.
    destruct (batches_spec (Z.to_nat (Docx2pdfConverter.batch_size args))
                (length (d :: ds)) (d :: ds)) as (Hcat & _); [lia|done|].
    rewrite Hcat in Hloop. lia.
Qed.

Lemma X17_converter_counts_every_file_witness :
  let args := Docx2pdfConverter.Arguments_ "in" (Some "out") 4 10 in
  let w := World {[ "in/a.docx" := WordDoc ]} {[ "in"; "out" ]} ∅ [] in
  (Docx2pdfConverter.main project_env args w).1 = Ret (0, Some (1, 0))
  ∧ 1 + 0
    = length
        (filter (fun p => Docx2pdfConverter.is_docx_name (OsPath.basename p))
           (walk_files project_env (with_output_dir "out" w) "in")).
Proof.
  intros args w. split; [evaluated|].
  destruct (X17_converter_counts_every_file project_env args w
              (Docx2pdfConverter.main project_env args w).2 0
              (Some (1, 0))) as (_ & _ & _ & H).
  - evaluated.
  - destruct (H 1 0 eq_refl) as [H1 _]. apply H1. evaluated.
Defined.


(** ** The rows of the spreadsheet *)

Section MappingRows.







Lemma matches_all_chars (pat : Re.pattern) (f : ascii → bool) (m : string) :
  Forall (fun cls : ascii → bool => ∀ c, cls c = true → f c = true) pat →
  matches pat m → PyStr.all_chars f m = true.
Proof.
  unfold matches. intros Hpat. revert m.
  induction Hpat as [|cls pat Hcls Hpat IH]; intros m Hm.
  - destruct m; [done|inversion Hm].
  - destruct m as [|c m]; [inversion Hm|]. simpl in Hm.
    apply Forall2_cons_1 in Hm as [Hc Hm]. simpl.
    by rewrite (Hcls c Hc), (IH m Hm).
Qed.

Lemma project_id_chars (k : string) :
  is_project_id k →
  PyStr.all_chars pid_char k = true
  ∧ ∃ d, k = String "P" d ∧ PyStr.all_chars PyStr.is_digit d = true
      ∧ PyStr.truthy d = true.
Proof.
  intros Hk. split.
  - apply (matches_all_chars Re.pid_digits); [|done].
    unfold Re.pid_digits, pid_char. repeat constructor.
    + intros c Hc. unfold Re.lit in Hc. by rewrite Hc.
    + intros c Hc. by rewrite Hc, orb_true_r.
    + intros c Hc. by rewrite Hc, orb_true_r.
    + intros c Hc. by rewrite Hc, orb_true_r.
    + intros c Hc. by rewrite Hc, orb_true_r.
    + intros c Hc. by rewrite Hc, orb_true_r.
    + intros c Hc. by rewrite Hc, orb_true_r.
  - unfold is_project_id, matches, Re.pid_digits in Hk.
    destruct k as [|c d]; [inversion Hk|]. simpl in Hk.
    apply Forall2_cons_1 in Hk as [Hc Hd].
    unfold Re.lit in Hc. apply Ascii.eqb_eq in Hc as ->.
    exists d. split; [done|]. split.
    + apply (matches_all_chars (repeat PyStr.is_digit 6)); [|done].
      simpl. repeat constructor; done.
    + destruct d; [inversion Hd|done].
Qed.



End MappingRows.




(** ** Off Windows *)

(** X19.  Off Windows nothing is converted: [process_file] of
    [docx2pdf_converter.py] returns a failure with the message
    [Microsoft Word conversion requires Windows] and [main] returns 1, both
    changing nothing; [process_file] of [word_to_pdf.py] returns a failure,
    with that message or with the one of [os.makedirs], having written no
    file. *)
Theorem X19_nothing_is_converted_off_windows (E : env) :
  platform_system E ≠ "Windows" →
  (∀ file_path output_dir w,
     Docx2pdfConverter.process_file E file_path output_dir w
     = (Ret (file_path, false,
             Some "Microsoft Word conversion requires Windows"), w))
  ∧ (∀ args w, Docx2pdfConverter.main E args w = (Ret (1, None), w))
  ∧ ∀ fuel file_path output_dir input_dir rename_with_pid country_mapping w,
      weight w
      + String.length
          (OsPath.join output_dir
             (OsPath.dirname (relpath E file_path input_dir))) < fuel →
      ∃ e w',
        WordToPdf.process_file fuel E file_path output_dir input_dir
          rename_with_pid country_mapping w
        = (Ret (WordToPdf.Result file_path false (Some e) None), w')
        ∧ same_files w w'
        ∧ (e = "Microsoft Word conversion requires Windows"
           ∨ e = "File exists").
Proof.
  intros Hwin.
  assert (negb (String.eqb (platform_system E) "Windows") = true) as Hneg.
  { apply negb_true_iff. by apply String.eqb_neq. }
  split_and!.
  - intros file_path output_dir w.
    unfold Docx2pdfConverter.process_file, try_except. by rewrite Hneg.
  - intros args w. unfold Docx2pdfConverter.main. by rewrite Hneg.
  - intros fuel file_path output_dir input_dir rename_with_pid country_mapping
      w Hfuel.
    unfold WordToPdf.process_file, try_except.
    unfold mbind at 1, M_bind at 1, bind at 1.
    destruct (WordToPdf.resolve_target_dir output_dir
                (OsPath.dirname (relpath E file_path input_dir)) false w)
      as [[t|e|] w1] eqn:Hres.
    + pose proof (weight_resolve_target_dir _ _ _ _ _ _ Hres) as Hweight.
      destruct (resolve_target_dir_effect output_dir
                  (OsPath.dirname (relpath E file_path input_dir)) false w)
        as [(t' & w1' & Hres' & Hsame & _)|[msg Hres']];
        rewrite Hres in Hres'; [|done]. injection Hres' as <- <-.
      unfold mbind at 1, M_bind at 1, bind at 1.
      destruct (probe_output_path_returns fuel file_path t w1) as (p & -> & _);
        [lia|].
      unfold WordToPdf.convert_and_rename. rewrite Hneg.
      eexists _, w1. split; [done|]. split; [done|by left].
    + exists e, w1. split; [done|].
      revert Hres. unfold WordToPdf.resolve_target_dir.
      destruct (_ && _); [|done].
      unfold mbind, M_bind, bind, Os.makedirs.
      destruct (Os.is_file w _); [|done].
      intros [= <- <-]. split; [done|by right].
    + exfalso. revert Hres. unfold WordToPdf.resolve_target_dir.
      destruct (_ && _); [|done].
      unfold mbind, M_bind, bind, Os.makedirs.
      by destruct (Os.is_file w _).
Qed.

Lemma X19_nothing_is_converted_off_windows_witness :
  Docx2pdfConverter.process_file linux_env "in/a.docx" "out" taken_world
  = (Ret ("in/a.docx", false,
          Some "Microsoft Word conversion requires Windows"), taken_world).
Proof.
  refine (proj1 (X19_nothing_is_converted_off_windows linux_env _)
            "in/a.docx" "out" taken_world).
  by vm_compute.
Defined.

Section CountryInserted.

Lemma split_char_nonempty (c : ascii) (s : string) : PyStr.split_char c s ≠ [].
Proof.
  destruct s as [|a r]; [done|]. simpl.
  destruct (PyStr.char_eqb a c); [done|].
  by destruct (PyStr.split_char c r).
Qed.

(** Joining the parts of a split with the separator gives the string back. *)
Lemma join_split (s : string) :
  PyStr.join_with "_" (PyStr.split_char "_" s) = s.
Proof.
  unfold PyStr.join_with. induction s as [|a r IH]; [done|].
  cbn [PyStr.split_char].
  pose proof (split_char_nonempty "_" r) as Hne.
  destruct (PyStr.char_eqb a "_") eqn:Ha.
  - unfold PyStr.char_eqb in Ha. apply Ascii.eqb_eq in Ha as ->.
    destruct (PyStr.split_char "_" r) as [|x xs]; [done|].
    cbn [String.concat]. by rewrite <- IH.
  - destruct (PyStr.split_char "_" r) as [|x xs]; [done|].
    destruct xs as [|y ys]; simpl in IH |- *; by rewrite <- IH.
Qed.

Lemma join_with_cons (sep a : string) (l : list string) :
  l ≠ [] →
  PyStr.join_with sep (a :: l) = a +:+ sep +:+ PyStr.join_with sep l.
Proof. by destruct l. Qed.

Lemma split_char_prefix (a r : string) :
  PyStr.all_chars pid_char a = true →
  PyStr.split_char "_" (a +:+ "_" +:+ r) = a :: PyStr.split_char "_" r.
Proof.
  induction a as [|c a IH]; intros Ha.
  - done.
  - simpl in Ha. apply andb_true_iff in Ha as [Hc Ha].
    rewrite app_cons. cbn [PyStr.split_char].
    assert (PyStr.char_eqb c "_" = false) as ->.
    { unfold PyStr.char_eqb. destruct (Ascii.eqb_spec c "_") as [->|]; done. }
    by rewrite (IH Ha).
Qed.

Lemma dedup_loop_free (fuel : nat) (w : world) (parts : list string)
    (country pdf_file dirname : string) (counter : nat)
    (new_filename new_path : string) :
  Os.path_exists w new_path = false →
  WordToPdf.dedup_loop (S fuel) w parts country pdf_file dirname counter
    new_filename new_path = Some (new_filename, new_path).
Proof. intros Hfree. cbn [WordToPdf.dedup_loop]. by rewrite Hfree. Qed.

Lemma reconcile_one_runs (fuel : nat) (country_mapping : gmap string string)
    (updated_count : nat) (pdf_file pid country new_filename : string)
    (parts : list string) (c : content) (w : world) :
  WordToPdf.rename_plan country_mapping (OsPath.basename pdf_file)
  = Some (pid, country, parts) →
  WordToPdf.first_new_filename pid country parts = new_filename →
  files w !! pdf_file = Some c →
  pdf_file ∉ locked w →
  Os.path_exists w (OsPath.join (OsPath.dirname pdf_file) new_filename)
  = false →
  Os.dir_exists w
    (OsPath.dirname (OsPath.join (OsPath.dirname pdf_file) new_filename))
  = true →
  ∃ w',
    WordToPdf.reconcile_one (S fuel) country_mapping updated_count pdf_file w
    = (Ret (updated_count + 1), w')
    ∧ files w'
      = <[OsPath.join (OsPath.dirname pdf_file) new_filename := c]>
          (delete pdf_file (files w)).
Proof.
  intros Hplan Hname Hc Hl Hfree Hdir. unfold WordToPdf.reconcile_one.
  rewrite Hplan, Hname.
  unfold mbind at 1, M_bind at 1, bind at 1, get_world.
  rewrite dedup_loop_free by done.
  unfold try_except, mbind, M_bind, bind.
  pose proof (is_dir_exists _ _ Hfree) as [Hd _].
  rewrite (rename_runs pdf_file _ c w Hc Hl Hd Hdir).
  eexists. split; done.
Qed.

Lemma project_id_no_underscore (pid : string) :
  is_project_id pid → PyStr.contains "_" pid = false.
Proof.
  intros Hpid. destruct (project_id_chars pid Hpid) as [Hchars _].
  clear Hpid. induction pid as [|a r IH]; [done|].
  simpl in Hchars. apply andb_true_iff in Hchars as [Ha Hr].
  rewrite contains_unfold, (IH Hr). cbn [PyStr.startswith].
  destruct (Ascii.eqb_spec "_" a) as [<-|]; done.
Qed.

Lemma contains_underscore_app (a b : string) :
  PyStr.contains "_" (a +:+ b)
  = PyStr.contains "_" a || PyStr.contains "_" b.
Proof.
  induction a as [|c a IH].
  - change ("" +:+ b) with b. by destruct b.
  - rewrite app_cons, !(contains_unfold "_" (String c _)), IH.
    cbn [PyStr.startswith]. by rewrite !andb_true_r, orb_assoc.
Qed.

Lemma substring_0_app (a b : string) :
  String.substring 0 (String.length a) (a +:+ b) = a.
Proof.
  induction a as [|c a IH]; [by destruct b|].
  rewrite app_cons. simpl. by rewrite IH.
Qed.

End CountryInserted.

(** X20.  For a file named [<id>.pdf] or [<id>_<rest>] whose identifier
    has a country in the mapping that the name does not contain yet, the
    reconciliation renames it, in its directory, to the name with
    [_<country>] put right after the identifier, when that name is free and
    the file can be moved, and counts one update. *)
Theorem X20_country_goes_after_the_identifier (fuel : nat)
    (country_mapping : gmap string string) (updated_count : nat)
    (pdf_file pid tail c : string) (doc : content) (w : world) :
  let country := PyStr.replace_char " " "_" c in
  let new_path :=
    OsPath.join (OsPath.dirname pdf_file) (pid +:+ "_" +:+ country +:+ tail) in
  is_project_id pid →
  country_mapping !! pid = Some c →
  OsPath.basename pdf_file = pid +:+ tail →
  tail = ".pdf" ∨ (∃ rest, tail = "_" +:+ rest) →
  PyStr.contains country (OsPath.basename pdf_file) = false →
  files w !! pdf_file = Some doc →
  pdf_file ∉ locked w →
  Os.path_exists w new_path = false →
  Os.dir_exists w (OsPath.dirname new_path) = true →
  ∃ w',
    WordToPdf.reconcile_one (S fuel) country_mapping updated_count pdf_file w
    = (Ret (updated_count + 1), w')
    ∧ files w' = <[new_path := doc]> (delete pdf_file (files w)).
Proof.
  intros country new_path Hpid Hc Hbase Htail Hnot Hdoc Hl Hfree Hdir.
  destruct (project_id_chars pid Hpid) as [Hchars _].
  assert (Re.re_search Re.pid_digits (pid +:+ tail) = Some pid) as Hsearch
    by apply (re_search_prefix Re.pid_digits pid tail Hpid).
  destruct Htail as [->|[rest ->]].
  - apply (reconcile_one_runs fuel country_mapping updated_count pdf_file pid
             country (pid +:+ "_" +:+ country +:+ ".pdf") [pid]);
      try done.
    unfold WordToPdf.rename_plan. rewrite Hbase, Hsearch, Hc.
    fold country. rewrite <- Hbase, Hnot, Hbase. cbn [negb].
    rewrite contains_underscore_app, (project_id_no_underscore pid Hpid).
    change (PyStr.contains "_" ".pdf") with false. cbn [orb].
    unfold PyStr.drop_last. rewrite length_app'.
    replace (String.length pid + String.length ".pdf" - 4)
      with (String.length pid) by (simpl; lia).
    rewrite substring_0_app. cbn [hd]. by rewrite String.eqb_refl.
  - apply (reconcile_one_runs fuel country_mapping updated_count pdf_file pid
             country (pid +:+ "_" +:+ country +:+ "_" +:+ rest)
             (pid :: PyStr.split_char "_" rest)); try done.
    + unfold WordToPdf.rename_plan. rewrite Hbase, Hsearch, Hc.
      fold country. rewrite <- Hbase, Hnot, Hbase. cbn [negb].
      assert (PyStr.contains "_" (pid +:+ "_" +:+ rest) = true) as ->.
      { apply (contains_app pid "_" rest). }
      rewrite (split_char_prefix pid rest Hchars). cbn [hd].
      by rewrite String.eqb_refl.
    + unfold WordToPdf.first_new_filename.
      pose proof (split_char_nonempty "_" rest) as Hne.
      assert ((1 <? length (pid :: PyStr.split_char "_" rest)) = true) as ->.
      { destruct (PyStr.split_char "_" rest); done. }
      cbn [hd tl app].
      rewrite join_with_cons by done. rewrite join_with_cons by done.
      by rewrite join_split.
Qed.

Lemma X20_country_goes_after_the_identifier_witness :
  ∃ w',
    WordToPdf.reconcile_one 1 kenya 0 "out/P123456_EN.pdf" untagged_world
    = (Ret (0 + 1), w')
    ∧ files w'
      = <["out/P123456_Kenya_EN.pdf" := Pdf (Some [])]>
          (delete "out/P123456_EN.pdf" (files untagged_world)).
Proof.
  refine (X20_country_goes_after_the_identifier 0 kenya 0
            "out/P123456_EN.pdf" "P123456" "_EN.pdf" "Kenya" (Pdf (Some []))
            untagged_world _ _ _ _ _ _ _ _ _).
  - unfold is_project_id, matches. simpl. repeat constructor.
  - reflexivity.
  - reflexivity.
  - right. by exists "EN.pdf".
  - reflexivity.
  - reflexivity.
  - apply not_elem_of_empty.
  - reflexivity.
  - reflexivity.
Defined.

(** ** docx2pdf_converter.py: the conversion with LibreOffice *)

Section LibreOffice.

Lemma split_last_dot_no_dot (s : string) :
  PyStr.contains "." s = false → OsPath.split_last_dot s = None.
Proof.
  induction s as [|c r IH]; [done|].
  rewrite contains_unfold. cbn [PyStr.startswith].
  intros [Hc Hr]%orb_false_iff. cbn [OsPath.split_last_dot].
  rewrite (IH Hr). rewrite andb_true_r in Hc.
  by rewrite Ascii.eqb_sym, Hc.
Qed.

Lemma has_sep_stem (p : string) : OsPath.has_sep (OsPath.stem p) = false.
Proof.
  unfold OsPath.stem, OsPath.stem_of_name.
  pose proof (has_sep_basename p) as Hb.
  destruct (OsPath.split_last_dot (OsPath.basename p)) as [[b e]|] eqn:Hs;
    [|done].
  destruct (PyStr.truthy b && (1 <? String.length e)); [|done].
  revert b e Hs Hb. generalize (OsPath.basename p). intros s.
  induction s as [|c r IH]; intros b e Hs Hb; [done|].
  cbn [OsPath.split_last_dot] in Hs. simpl in Hb.
  apply orb_false_iff in Hb as [Hc Hr].
  destruct (OsPath.split_last_dot r) as [[b' e']|] eqn:Hr'.
  - injection Hs as <- <-. simpl. by rewrite Hc, (IH b' e' eq_refl Hr).
  - destruct (Ascii.eqb c "."); [|done]. by injection Hs as <- <-.
Qed.

Lemma head_of_join (d f : string) :
  OsPath.has_sep f = false →
  OsPath.head_of (OsPath.join d f) +:+ f = OsPath.join d f.
Proof.
  intros Hf. rewrite (join_no_sep d f Hf).
  destruct (negb (PyStr.truthy d) || OsPath.ends_with_sep d) eqn:Hd.
  - rewrite head_of_app_no_sep; [done|done|].
    apply orb_true_iff in Hd as [Hd|Hd]; [|by right].
    left. destruct d; done.
  - rewrite head_of_app_no_sep; [done|done|].
    right. apply ends_with_sep_app_sep.
Qed.

(** The default output is the file that LibreOffice writes, for a stem
    without dot. *)
Lemma default_output_plain (d s : string) :
  OsPath.has_sep s = false →
  PyStr.contains "." s = false →
  PyStr.truthy s = true →
  OsPath.with_suffix (OsPath.join d s) ".pdf" = OsPath.join d (s +:+ ".pdf").
Proof.
  intros Hsep Hdot Hs. unfold OsPath.with_suffix, OsPath.stem.
  rewrite (basename_join d s Hsep).
  unfold OsPath.stem_of_name. rewrite (split_last_dot_no_dot s Hdot).
  rewrite <- app_assoc', (head_of_join d s Hsep).
  by rewrite (join_app_r d s ".pdf" Hs).
Qed.

End LibreOffice.

(** X21.  When [convert_with_libreoffice] returns, it returns
    [output_file]; and when the stem of the input file has no dot,
    [output_file] then holds the PDF that LibreOffice made (with a dot in
    the stem, [default_output] is not the name of that PDF and the rename
    onto [output_file] is left out). *)
Theorem X21_libreoffice_output (E : env) (input_file output_file : string)
    (w w' : world) (r : string) :
  Docx2pdfConverter.convert_with_libreoffice E input_file output_file w
  = (Ret r, w') →
  r = output_file
  ∧ ∃ doc,
      soffice_run E input_file = inl doc
      ∧ (PyStr.contains "." (OsPath.stem input_file) = false →
         PyStr.truthy (OsPath.stem input_file) = true →
         files w' !! output_file = Some (Pdf doc)).
Proof.
  unfold Docx2pdfConverter.convert_with_libreoffice.
  unfold mbind at 1, M_bind at 1, bind at 1, get_world.
  destruct (negb (truthy_opt (Docx2pdfConverter.find_soffice E w))); [done|].
  set (d := if PyStr.truthy (OsPath.dirname output_file)
            then OsPath.dirname output_file else ".").
  destruct (soffice_run E input_file) as [doc|stderr]; [|done].
  unfold mbind at 1, M_bind at 1, bind at 1.
  set (produced := OsPath.join d (OsPath.stem input_file +:+ ".pdf")).
  destruct (save_effect produced (Pdf doc) w) as [[-> _]|[msg ->]]; [|done].
  set (w1 := Os.put produced (Pdf doc) _).
  assert (files w1 !! produced = Some (Pdf doc)) as Hprod
    by apply lookup_insert_eq.
  unfold mbind at 1, M_bind at 1, bind at 1, Os.exists_.
  set (default_output :=
         OsPath.with_suffix (OsPath.join d (OsPath.stem input_file)) ".pdf").
  destruct (String.eqb_spec output_file default_output) as [Heq|Hne];
    cbn [negb andb].
  - unfold mret, M_ret, ret. intros [= <- <-]. split; [done|].
    exists doc. split; [done|]. intros Hdot Hs. rewrite Heq.
    unfold default_output.
    rewrite (default_output_plain d _ (has_sep_stem input_file) Hdot Hs).
    exact Hprod.
  - destruct (Os.path_exists w1 default_output) eqn:Hex.
    + unfold mbind, M_bind, bind, mret, M_ret, ret.
      destruct (rename_effect default_output output_file w1)
        as [(c & Hc & _ & _ & ->)|[msg ->]]; [|done].
      intros [= <- <-]. split; [done|]. exists doc. split; [done|].
      intros Hdot Hs. simpl. rewrite lookup_insert_eq. f_equal.
      unfold default_output in Hc.
      rewrite (default_output_plain d _ (has_sep_stem input_file) Hdot Hs)
        in Hc.
      fold produced in Hc. congruence.
    + unfold mret, M_ret, ret. intros [= <- <-]. split; [done|].
      exists doc. split; [done|]. intros Hdot Hs. exfalso.
      unfold default_output in Hex.
      rewrite (default_output_plain d _ (has_sep_stem input_file) Hdot Hs)
        in Hex.
      fold produced in Hex. apply free_lookup in Hex. congruence.
Qed.

Lemma X21_libreoffice_output_witness :
  let run :=
    Docx2pdfConverter.convert_with_libreoffice linux_env "in/a.docx"
      "out/b.pdf" taken_world in
  run.1 = Ret "out/b.pdf"
  ∧ files run.2 !! "out/b.pdf" = Some (Pdf (Some [Some "the new text"])).
Proof.
  intros run. split; [evaluated|].
  destruct (X21_libreoffice_output linux_env "in/a.docx" "out/b.pdf"
              taken_world run.2 "out/b.pdf") as (_ & doc & Hdoc & H).
  - evaluated.
  - injection Hdoc as <-. apply H; reflexivity.
Defined.

(** A stem with a dot: LibreOffice writes [out/a.b.pdf], the default output
    is taken to be [out/a.pdf], and the returned path holds no file. *)
Lemma libreoffice_dotted_stem :
  let run :=
    Docx2pdfConverter.convert_with_libreoffice linux_env "in/a.b.docx"
      "out/x.pdf" (World ∅ {[ "in"; "out" ]} ∅ []) in
  run.1 = Ret "out/x.pdf"
  ∧ dom (files run.2) = {[ "out/a.b.pdf" ]}.
Proof. intros run. split; evaluated. Qed.
